(** * archetypal.idfclass: a shallow embedding and its verified properties

    The development follows [src/archetypal/idfclass.py]:
    - [IDF]: the attribute-write interceptor of the [IDF] class
      ([__setattr__], [__set_on_dependencies], [_reset_dependant_vars]),
      [setiddname], [upgrade] and the method [_execute_transitions];
    - [MD5] and [hash_model]: the cache fingerprint;
    - [_check_version], [_execute_transitions], [idf_version_updater]: the
      module-level (deprecated) migration functions;
    - [_run_exec]: the failure path of the EnergyPlus subprocess;
    - [summary_reports_to_dataframes]: the HTML report reader.

    Python objects are modelled by explicit state passing: an instance is its
    [__dict__], the outside world (disk, subprocesses) is an abstract state
    with the operations the code performs on it, and a raised exception is a
    value of [exn]. *)

From Stdlib Require Import ZArith List String Ascii Lia Permutation Sorted.
From Stdlib Require Import OrderedTypeEx.
From stdpp Require Import gmap strings list pretty.

Open Scope string_scope.
Open Scope Z_scope.

(** ** Python values and exceptions *)

(** The values that reach the attribute slots and the run arguments. *)
Inductive pyval : Type :=
| PyNone
| PyBool (b : bool)
| PyInt (z : Z)
| PyStr (s : string)
| PyObj (id : nat).

Global Instance pyval_eq_dec : EqDecision pyval.
Proof. solve_decision. Defined.

(** The [cmd] carried by a process error: a single program path in the
    migration functions, an argument vector in [_run_exec]. *)
Inductive pycmd : Type :=
| CmdPath (p : string)
| CmdArgv (argv : list string).

Inductive exn : Type :=
| AttributeError (msg : string)
| KeyError (key : string)
| ValueError (msg : string)
| IndexError (msg : string)
| UnboundLocalError (name : string)
| FileNotFoundError (path : string)
| FileExistsError (path : string)
| EnergyPlusVersionError (args : list string)
| EnergyPlusProcessError (cmd : pycmd) (stderr : string) (idf : string)
| CalledProcessError (returncode : Z) (cmd : pycmd)
| OtherError (msg : string).

(** Result of a computation that may raise. *)
Inductive result (A : Type) : Type :=
| Ok (a : A)
| Raise (e : exn).
Arguments Ok {A} a.
Arguments Raise {A} e.

Definition rbind {A B : Type} (r : result A) (k : A -> result B) : result B :=
  match r with
  | Ok a => k a
  | Raise e => Raise e
  end.

(** ** Strings, version tuples *)

Definition code (c : ascii) : Z := Z.of_nat (nat_of_ascii c).

Definition is_digit (c : ascii) : bool := (48 <=? code c) && (code c <=? 57).

(** ASCII white space, as [str.strip] and [int] skip it. *)
Definition is_space (c : ascii) : bool :=
  (code c =? 32) || ((9 <=? code c) && (code c <=? 13)).

(** [str.split(sep)] for a separator of one character. *)
Fixpoint split (sep : ascii) (s : string) : list string :=
  match s with
  | EmptyString => [EmptyString]
  | String c rest =>
      if Ascii.eqb c sep then EmptyString :: split sep rest
      else match split sep rest with
           | head :: tail => String c head :: tail
           | [] => [String c EmptyString]
           end
  end.

(** [str.replace(old, new)] for single characters. *)
Fixpoint replace (old new : ascii) (s : string) : string :=
  match s with
  | EmptyString => EmptyString
  | String c rest => String (if Ascii.eqb c old then new else c) (replace old new rest)
  end.

(** The slice [s[0:n]]. *)
Definition prefix_slice (n : nat) (s : string) : string := String.substring 0 n s.

Fixpoint lstrip (s : string) : string :=
  match s with
  | String c rest => if is_space c then lstrip rest else s
  | EmptyString => EmptyString
  end.

Fixpoint rstrip (s : string) : string :=
  match s with
  | EmptyString => EmptyString
  | String c rest =>
      match rstrip rest with
      | EmptyString => if is_space c then EmptyString else String c EmptyString
      | rest' => String c rest'
      end
  end.

Definition strip (s : string) : string := lstrip (rstrip s).

(** Decimal digits with single underscores between them. *)
Fixpoint digits_value (acc : Z) (after_digit : bool) (s : string) : option Z :=
  match s with
  | EmptyString => if after_digit then Some acc else None
  | String c rest =>
      if is_digit c then digits_value (10 * acc + (code c - 48)) true rest
      else if Ascii.eqb c "_" then
        if after_digit then digits_value acc false rest else None
      else None
  end.

(** [int(s)] for a [str]: white space around, a sign, decimal digits. *)
Definition py_int (s : string) : result Z :=
  let body := strip s in
  let parsed :=
    match body with
    | String "+" rest => digits_value 0 false rest
    | String "-" rest => Z.opp <$> digits_value 0 false rest
    | _ => digits_value 0 false body
    end in
  match parsed with
  | Some z => Ok z
  | None => Raise (ValueError ("invalid literal for int() with base 10: '" +:+ s +:+ "'"))
  end.

(** [map(f, xs)] forced by [tuple(...)]: the first failure is raised. *)
Fixpoint map_result {A B : Type} (f : A -> result B) (l : list A) : result (list B) :=
  match l with
  | [] => Ok []
  | x :: rest =>
      rbind (f x) (fun y => rbind (map_result f rest) (fun ys => Ok (y :: ys)))
  end.

(** [tuple(map(int, s.split("-")))] *)
Definition int_tuple (sep : ascii) (s : string) : result (list Z) :=
  map_result py_int (split sep s).

(** Order of Python tuples of integers. *)
Fixpoint tuple_lt (a b : list Z) : bool :=
  match a, b with
  | [], [] => false
  | [], _ :: _ => true
  | _ :: _, [] => false
  | x :: a', y :: b' => if x =? y then tuple_lt a' b' else x <? y
  end.
Definition tuple_gt (a b : list Z) : bool := tuple_lt b a.
Definition tuple_le (a b : list Z) : bool := negb (tuple_lt b a).
Definition tuple_ge (a b : list Z) : bool := negb (tuple_lt a b).

(** Order of Python tuples of strings. *)
Fixpoint str_tuple_lt (a b : list string) : bool :=
  match a, b with
  | [], [] => false
  | [], _ :: _ => true
  | _ :: _, [] => false
  | x :: a', y :: b' => if String.eqb x y then str_tuple_lt a' b' else String.ltb x y
  end.
Definition str_tuple_gt (a b : list string) : bool := str_tuple_lt b a.

(** [str.join] *)
Fixpoint join (sep : string) (l : list string) : string :=
  match l with
  | [] => ""
  | [x] => x
  | x :: rest => x +:+ sep +:+ join sep rest
  end.

(** [posixpath.join(dir, name)], which [os.path.join] and the operator [/]
    of [Path] call: an absolute [name] drops [dir]. *)
Definition joinpath (dir name : string) : string :=
  match name with
  | String "/" _ => name
  | _ =>
      match dir with
      | EmptyString => name
      | _ =>
          match String.get (String.length dir - 1) dir with
          | Some "/"%char => dir +:+ name
          | _ => dir +:+ "/" +:+ name
          end
      end
  end.

(** ** The outside world *)

(** The operations of the operating system, of eppy and of the EnergyPlus
    installation that the migration and run functions call. [World] is the
    state of the disk. *)
Record OS (World : Type) : Type := {
  (** [Path.exists()], [os.path.exists] *)
  path_exists : World -> string -> bool;
  (** [Path.isdir()] *)
  path_isdir : World -> string -> bool;
  (** [Path.makedirs_p()] *)
  makedirs_p : string -> World -> World;
  (** [Path.copy(dst)]: the path of the copy *)
  path_copy : string -> string -> World -> string * World;
  (** [Path(dir).files(pattern)] *)
  path_files : World -> string -> string -> list string;
  (** [TemporaryDirectory(prefix, suffix, dir)] on entry and on exit *)
  mkdtemp : string -> option string -> string -> World -> string * World;
  cleanup : string -> World -> World;
  (** [subprocess.Popen(cmd, cwd=cwd).communicate()]: the program runs to
      its end on the disk *)
  Popen_communicate : list string -> string -> World -> World;
  (** the second field of the VERSION object of an idf file
      ([ver_block[1]] in [get_idf_version]) *)
  version_field : World -> string -> result string;
  (** [eppy.easyopen.getiddfile] *)
  getiddfile : string -> string;
  latest_energyplus_version : World -> result string;
  abspath : string -> string;
  dirname : string -> string;
  basename : string -> string
}.
Arguments path_exists {World}.
Arguments path_isdir {World}.
Arguments makedirs_p {World}.
Arguments path_copy {World}.
Arguments path_files {World}.
Arguments mkdtemp {World}.
Arguments cleanup {World}.
Arguments Popen_communicate {World}.
Arguments version_field {World}.
Arguments getiddfile {World}.
Arguments latest_energyplus_version {World}.
Arguments abspath {World}.
Arguments dirname {World}.
Arguments basename {World}.

(** The argument vectors of the subprocesses started so far. *)
Definition trace : Type := list (list string).

(** [get_idf_version(file, doted)] *)
Definition get_idf_version {World} (os : OS World) (w : World) (file : string) (doted : bool)
  : result string :=
  rbind (version_field os w file) (fun field =>
    if doted then Ok field
    else Ok (replace "." "-" field +:+ "-0")).

Definition missing_program_message (to_version exec : string) : string :=
  "The specified EnergyPlus version (v" +:+ to_version +:+
  ") does not have the required transition program '" +:+ exec +:+
  "' in the PreProcess folder. See the documentation " +:+
  "(archetypal.readthedocs.io/troubleshooting.html#missing-transition-programs) " +:+
  "to solve this issue".

Section TransitionLoop.
Context {World : Type} (os : OS World) {K : Type}.
(** [trans_exec[trans]], the version as the message formats it, the file
    to migrate, the name of the model and the directory of the updater. *)
Context (trans_exec : K -> result string).
Context (to_version idf_file idf cwd : string).

(** The loop [for trans in tqdm(transitions, ...)] that ends both
    [_execute_transitions] functions. *)
Fixpoint transition_loop (transitions : list K) (w : World) (tr : trace)
  : result unit * World * trace :=
  match transitions with
  | [] => (Ok tt, w, tr)
  | trans :: rest =>
      match trans_exec trans with
      | Raise e => (Raise e, w, tr)
      | Ok exec =>
          if negb (path_exists os w exec) then
            (Raise (EnergyPlusProcessError (CmdPath exec)
                      (missing_program_message to_version exec) idf), w, tr)
          else
            let cmd := [exec; idf_file] in
            transition_loop rest (Popen_communicate os cmd cwd w) (tr ++ [cmd])%list
      end
  end.
End TransitionLoop.

(** ** The dependency-tracked attributes of [IDF] *)

Module IDF.

(** An instance is its [__dict__]. *)
Abbreviation instance := (gmap string pyval).

(** A method body: runs on an instance, returns or raises, and leaves an
    instance behind in both cases. [None] means that the bound on nested
    interceptor calls (see [__setattr__]) was reached. *)
Definition M (A : Type) : Type := instance -> option (result A * instance).

Definition ret {A : Type} (a : A) : M A := fun st => Some (Ok a, st).
Definition throw {A : Type} (e : exn) : M A := fun st => Some (Raise e, st).
Definition bind {A B : Type} (m : M A) (k : A -> M B) : M B :=
  fun st =>
    match m st with
    | Some (Ok a, st') => k a st'
    | Some (Raise e, st') => Some (Raise e, st')
    | None => None
    end.
Definition lift {A : Type} (r : result A) : M A := fun st => Some (r, st).

Notation "'do' x <- m ; k" := (bind m (fun x => k))
  (at level 10, x name, m at level 100, k at level 200).
Notation "m ;;; k" := (bind m (fun _ => k))
  (at level 100, k at level 200, right associativity).

(** What the setters call outside the class: [Path(value).expand()],
    [parse(value)] and [self.valid_idds()]. *)
Record Env : Type := {
  Path_expand : pyval -> result pyval;
  parse : pyval -> result pyval;
  valid_idds : list pyval
}.

(** [_dependencies]: dict of <dependant value: independant value>. *)
Definition _dependencies : list (string * list string) :=
  [ ("iddname", ["idfname"; "as_version"]);
    ("file_version", ["idfname"]);
    ("idd_info", ["iddname"; "idfname"]);
    ("idd_index", ["iddname"; "idfname"]);
    ("idd_version", ["iddname"; "idfname"]);
    ("idfobjects", ["iddname"; "idfname"]);
    ("block", ["iddname"; "idfname"]);
    ("model", ["iddname"; "idfname"]);
    ("sql", ["as_version"; "annual"; "design_day"; "epw"; "idfname"; "iddname"]);
    ("htm", ["as_version"; "annual"; "design_day"; "epw"; "idfname"; "iddname"]);
    ("schedules_dict", ["idfobjects"]) ].

(** [set(chain( *list(_dependencies.values())))] *)
Definition _independant_vars : gset string :=
  list_to_set (concat (map snd _dependencies)).

(** [set(_dependencies.keys())] *)
Definition _dependant_vars : gset string :=
  list_to_set (map fst _dependencies).

(** [d.setdefault(x, []).append(k)] *)
Definition setdefault_append (x k : string) (d : gmap string (list string))
  : gmap string (list string) :=
  <[x := (default [] (d !! x) ++ [k])%list]> d.

(** The two nested loops that build [_reverse_dependencies]. *)
Definition _reverse_dependencies : gmap string (list string) :=
  fold_left
    (fun d kv => fold_left (fun d x => setdefault_append x (fst kv) d) (snd kv) d)
    _dependencies ∅.

(** [super().__setattr__(key, value)]: the plain slot write of [object]. *)
Definition object_setattr (key : string) (value : pyval) : M unit :=
  fun st => Some (Ok tt, <[key := value]> st).

Definition _reset_dependant_vars (name : string) : M unit :=
  match _reverse_dependencies !! name with
  | None => throw (KeyError name)
  | Some vars =>
      fold_left (fun m var => m ;;; object_setattr ("_" ++ var) PyNone)
                vars (ret tt)
  end.

Definition __set_on_dependencies (key : string) (value : pyval) : M unit :=
  if bool_decide (key ∈ _dependant_vars) then
    throw (AttributeError "Cannot set this value.")
  else if bool_decide (key ∈ _independant_vars) then
    _reset_dependant_vars key ;;;
    object_setattr ("_" ++ key) value
  else
    object_setattr key value.

(** The [@property] attributes of the class; [true] marks those that also
    have a [@<name>.setter]. *)
Definition properties : list (string * bool) :=
  [ ("original_idfname", false); ("idfname", true); ("block", false);
    ("idd_info", false); ("idd_index", false); ("idd_version", false);
    ("idfobjects", false); ("model", false); ("epw", true);
    ("iddname", false); ("file_version", false);
    ("custom_processes", false); ("include", false);
    ("keep_data_err", false); ("keep_data", false); ("simulname", false);
    ("output_suffix", false); ("verbose", false); ("expandobjects", false);
    ("readvars", false); ("epmacro", false); ("design_day", false);
    ("annual", false); ("prep_outputs", false); ("as_version", true);
    ("position", false); ("idfversionupdater_dir", false);
    ("output_directory", false); ("output_prefix", false);
    ("idf_version", false); ("name", false); ("sql", false); ("htm", false);
    ("sql_file", false); ("area_conditioned", false);
    ("partition_ratio", false); ("simulation_files", false);
    ("simulation_dir", false); ("schedules_dict", false);
    ("outputs", false); ("day_of_week_for_start_day", false) ].

(** [getattr(self.__class__, key, None)] followed by
    [isinstance(propobj, property)]: [Some has_fset] for a property. *)
Definition class_property (key : string) : option bool :=
  (list_to_map properties : gmap string bool) !! key.

Section Setattr.
Context (env : Env).

(** The three setters; [assign] is the attribute write [self.<key> = v]
    they perform, which goes through [__setattr__] again. *)
Definition fset (assign : string -> pyval -> M unit)
           (key : string) (value : pyval) : M unit :=
  if String.eqb key "idfname" then
    do p <- lift (Path_expand env value); assign "_idfname" p
  else if String.eqb key "epw" then
    do p <- lift (Path_expand env value); assign "_epw" p
  else
    (* as_version *)
    do parsed_version <- lift (parse env value);
    if bool_decide (parsed_version ∈ valid_idds env) then
      assign "_as_version" parsed_version
    else
      throw (EnergyPlusVersionError ["as_version is not valid"]).

(** [IDF.__setattr__]. The interceptor is re-entered by the writes of
    the setters; [depth] bounds that nesting. *)
Fixpoint __setattr__ (depth : nat) (key : string) (value : pyval) : M unit :=
  match depth with
  | O => fun _ => None
  | S depth' =>
      match class_property key with
      | Some false => throw (AttributeError "Cannot set attribute")
      | Some true =>
          fset (__setattr__ depth') key value ;;;
          __set_on_dependencies key value
      | None => __set_on_dependencies key value
      end
  end.

(** [IDF.setiddname]. *)
Definition setiddname (depth : nat) (iddname : pyval) : M unit :=
  __setattr__ depth "iddname" iddname ;;;
  __setattr__ depth "idd_info" PyNone ;;;
  __setattr__ depth "block" PyNone.
End Setattr.

(** *** Migration methods *)

(** Modelled from the spec: the class [EnergyPlusVersion] and the function
    [parse] of archetypal are not under src/. A version identifier
    "X-X-X" (or "X.X.X") is the tuple of its integers, a missing minor or
    micro number being 0 (9.2 is 9-2-0), and versions are ordered as these
    tuples: a linear, strictly increasing sequence. *)
Definition EnergyPlusVersion : Type := list Z.

Fixpoint strip_zeros (v : list Z) : list Z :=
  match v with
  | [] => []
  | x :: rest =>
      match strip_zeros rest with
      | [] => if x =? 0 then [] else [x]
      | rest' => x :: rest'
      end
  end.

Definition release (v : list Z) : EnergyPlusVersion :=
  let v' := strip_zeros v in
  (v' ++ repeat 0 (3 - List.length v'))%list.

Definition parse_version (s : string) : result EnergyPlusVersion :=
  rbind (int_tuple "-" (replace "." "-" s)) (fun v => Ok (release v)).

(** The form "X-X-X" of a version. *)
Definition dash (v : EnergyPlusVersion) : string :=
  join "-" (map (fun z : Z => pretty z) v).

Definition version_eqb (a b : EnergyPlusVersion) : bool := bool_decide (a = b).

(** The group 1 of [to-V(([\d])-([\d])-([\d]))] matched at the start of [s]. *)
Definition match_to_V (s : string) : option string :=
  match s with
  | String "t" (String "o" (String "-" (String "V"
      (String a (String "-" (String b (String "-" (String c _)))))))) =>
      if is_digit a && is_digit b && is_digit c then
        Some (String a (String "-" (String b (String "-" (String c EmptyString)))))
      else None
  | _ => None
  end.

(** [re.search(r"to-V(([\d])-([\d])-([\d]))", exec)]: the leftmost match. *)
Fixpoint re_search_to_V (s : string) : option string :=
  match match_to_V s with
  | Some g => Some g
  | None =>
      match s with
      | EmptyString => None
      | String _ rest => re_search_to_V rest
      end
  end.

(** [d[key] = value] on a dict kept in insertion order. *)
Fixpoint dict_set {A : Type} (key : EnergyPlusVersion) (value : A)
         (d : list (EnergyPlusVersion * A)) : list (EnergyPlusVersion * A) :=
  match d with
  | [] => [(key, value)]
  | (k, v) :: rest =>
      if version_eqb k key then (k, value) :: rest
      else (k, v) :: dict_set key value rest
  end.

Fixpoint dict_get {A : Type} (key : EnergyPlusVersion)
         (d : list (EnergyPlusVersion * A)) : option A :=
  match d with
  | [] => None
  | (k, v) :: rest => if version_eqb k key then Some v else dict_get key rest
  end.

(** [list.sort()] on versions. *)
Fixpoint insert_version (x : EnergyPlusVersion) (l : list EnergyPlusVersion)
  : list EnergyPlusVersion :=
  match l with
  | [] => [x]
  | y :: l' => if tuple_lt y x then y :: insert_version x l' else x :: y :: l'
  end.
Definition sort_versions (l : list EnergyPlusVersion) : list EnergyPlusVersion :=
  fold_right insert_version [] l.

(** What the read-only properties of [self] evaluate to during a call. *)
Record properties_of_self : Type := {
  name : string;
  idfname : string;
  output_directory : string;
  idfversionupdater_dir : string
}.

Section Migration.
Context {World : Type} (os : OS World) (self : properties_of_self).

(** [self.file_version] and [self.idf_version]: read from the file at
    each access. *)
Definition file_version (w : World) : result EnergyPlusVersion :=
  rbind (get_idf_version os w (idfname self) true) parse_version.

(** The dict comprehension over
    [self.idfversionupdater_dir.files("Transition-V*")]. *)
Definition transition_programs (w : World)
  : result (list (EnergyPlusVersion * string)) :=
  fold_left
    (fun acc exec =>
       rbind acc (fun d =>
         match re_search_to_V exec with
         | None => Raise (AttributeError "'NoneType' object has no attribute 'group'")
         | Some group1 =>
             rbind (parse_version group1) (fun key => Ok (dict_set key exec d))
         end))
    (path_files os w (idfversionupdater_dir self) "Transition-V*") (Ok []).

(** [[key for key in trans_exec if to_version >= key > self.idf_version]] *)
Fixpoint select_transitions (to_version : EnergyPlusVersion) (w : World)
         (keys : list EnergyPlusVersion) : result (list EnergyPlusVersion) :=
  match keys with
  | [] => Ok []
  | key :: rest =>
      if tuple_ge to_version key then
        rbind (file_version w) (fun idf_version =>
          if tuple_gt key idf_version then
            rbind (select_transitions to_version w rest) (fun l => Ok (key :: l))
          else select_transitions to_version w rest)
      else select_transitions to_version w rest
  end.

(** [IDF._execute_transitions] *)
Definition _execute_transitions (idf_file : string) (to_version : EnergyPlusVersion)
           (w : World) (tr : trace) : result unit * World * trace :=
  match transition_programs w with
  | Raise e => (Raise e, w, tr)
  | Ok trans_exec =>
      match select_transitions to_version w (map fst trans_exec) with
      | Raise e => (Raise e, w, tr)
      | Ok transitions =>
          transition_loop os
            (fun trans => match dict_get trans trans_exec with
                          | Some exec => Ok exec
                          | None => Raise (KeyError (dash trans))
                          end)
            (dash to_version) idf_file (name self) (idfversionupdater_dir self)
            (sort_versions transitions) w tr
      end
  end.

(** The loop [for f in Path(tmp).files("*.idfnew")] that retrieves the
    transitioned file; [file] stays unbound when there is none. *)
Definition retrieve_transitioned (out_dir idf_file : string) (overwrite : bool)
           (tmp : string) (w : World) : option string * World :=
  fold_left
    (fun acc f =>
       let '(_, w0) := acc in
       let '(file, w1) :=
         if overwrite then path_copy os f (joinpath out_dir (basename os idf_file)) w0
         else path_copy os f out_dir w0 in
       (Some file, w1))
    (path_files os w tmp "*.idfnew") (None, w).

Context (env : Env) (depth : nat).

End Migration.

End IDF.

(** ** MD5 ([hashlib.md5]), RFC 1321, on byte lists *)

Module MD5.

Definition mask32 (x : Z) : Z := Z.land x 0xffffffff.
Definition not32 (x : Z) : Z := Z.lxor x 0xffffffff.
Definition rotl32 (x c : Z) : Z :=
  mask32 (Z.lor (Z.shiftl x c) (Z.shiftr x (32 - c))).

Definition shifts : list Z :=
  [ 7; 12; 17; 22; 7; 12; 17; 22; 7; 12; 17; 22; 7; 12; 17; 22;
    5; 9; 14; 20; 5; 9; 14; 20; 5; 9; 14; 20; 5; 9; 14; 20;
    4; 11; 16; 23; 4; 11; 16; 23; 4; 11; 16; 23; 4; 11; 16; 23;
    6; 10; 15; 21; 6; 10; 15; 21; 6; 10; 15; 21; 6; 10; 15; 21 ].

(** [floor(2^32 * abs(sin(i + 1)))] *)
Definition sines : list Z :=
  [ 0xd76aa478; 0xe8c7b756; 0x242070db; 0xc1bdceee;
    0xf57c0faf; 0x4787c62a; 0xa8304613; 0xfd469501;
    0x698098d8; 0x8b44f7af; 0xffff5bb1; 0x895cd7be;
    0x6b901122; 0xfd987193; 0xa679438e; 0x49b40821;
    0xf61e2562; 0xc040b340; 0x265e5a51; 0xe9b6c7aa;
    0xd62f105d; 0x02441453; 0xd8a1e681; 0xe7d3fbc8;
    0x21e1cde6; 0xc33707d6; 0xf4d50d87; 0x455a14ed;
    0xa9e3e905; 0xfcefa3f8; 0x676f02d9; 0x8d2a4c8a;
    0xfffa3942; 0x8771f681; 0x6d9d6122; 0xfde5380c;
    0xa4beea44; 0x4bdecfa9; 0xf6bb4b60; 0xbebfbc70;
    0x289b7ec6; 0xeaa127fa; 0xd4ef3085; 0x04881d05;
    0xd9d4d039; 0xe6db99e5; 0x1fa27cf8; 0xc4ac5665;
    0xf4292244; 0x432aff97; 0xab9423a7; 0xfc93a039;
    0x655b59c3; 0x8f0ccc92; 0xffeff47d; 0x85845dd1;
    0x6fa87e4f; 0xfe2ce6e0; 0xa3014314; 0x4e0811a1;
    0xf7537e82; 0xbd3af235; 0x2ad7d2bb; 0xeb86d391 ].

Definition nthZ (l : list Z) (i : Z) : Z := nth (Z.to_nat i) l 0.

Definition regs : Type := Z * Z * Z * Z.

(** One of the 64 operations on a block [m] of sixteen words. *)
Definition operation (m : list Z) (r : regs) (i : Z) : regs :=
  let '(a, b, c, d) := r in
  let '(f, g) :=
    if i <? 16 then (Z.lor (Z.land b c) (Z.land (not32 b) d), i)
    else if i <? 32 then
      (Z.lor (Z.land d b) (Z.land (not32 d) c), (5 * i + 1) mod 16)
    else if i <? 48 then (Z.lxor (Z.lxor b c) d, (3 * i + 5) mod 16)
    else (Z.lxor c (Z.lor b (not32 d)), (7 * i) mod 16) in
  let f' := mask32 (f + a + nthZ sines i + nthZ m g) in
  (d, mask32 (b + rotl32 f' (nthZ shifts i)), b, c).

(** Little-endian 32-bit words of a 64-byte block. *)
Fixpoint words (n : nat) (block : list Z) : list Z :=
  match n with
  | O => []
  | S n' =>
      match block with
      | b0 :: b1 :: b2 :: b3 :: rest =>
          (b0 + 256 * (b1 + 256 * (b2 + 256 * b3))) :: words n' rest
      | _ => []
      end
  end.

Definition indices : list Z := map Z.of_nat (seq 0 64).

Definition process_block (r : regs) (block : list Z) : regs :=
  let '(a0, b0, c0, d0) := r in
  let '(a, b, c, d) := fold_left (operation (words 16 block)) indices r in
  (mask32 (a0 + a), mask32 (b0 + b), mask32 (c0 + c), mask32 (d0 + d)).

Fixpoint le_bytes (n : nat) (x : Z) : list Z :=
  match n with
  | O => []
  | S n' => (x mod 256) :: le_bytes n' (x / 256)
  end.

(** Append the bit 1, zeros up to 56 modulo 64, and the bit length. *)
Definition pad (msg : list Z) : list Z :=
  let len := Z.of_nat (List.length msg) in
  let zeros := Z.to_nat ((55 - len) mod 64) in
  (msg ++ [0x80] ++ repeat 0 zeros ++ le_bytes 8 (8 * len mod 2 ^ 64))%list.

Fixpoint blocks (fuel : nat) (l : list Z) : list (list Z) :=
  match fuel with
  | O => []
  | S fuel' =>
      match l with
      | [] => []
      | _ => firstn 64 l :: blocks fuel' (skipn 64 l)
      end
  end.

Definition initial : regs := (0x67452301, 0xefcdab89, 0x98badcfe, 0x10325476).

Definition digest (msg : list Z) : list Z :=
  let p := pad msg in
  let '(a, b, c, d) := fold_left process_block (blocks (List.length p) p) initial in
  (le_bytes 4 a ++ le_bytes 4 b ++ le_bytes 4 c ++ le_bytes 4 d)%list.

Definition hex_digit (x : Z) : ascii :=
  ascii_of_nat (Z.to_nat (if x <? 10 then 48 + x else 87 + x)).

Fixpoint hex (bytes : list Z) : string :=
  match bytes with
  | [] => EmptyString
  | b :: rest => String (hex_digit (b / 16)) (String (hex_digit (b mod 16)) (hex rest))
  end.

Fixpoint bytes_of_string (s : string) : list Z :=
  match s with
  | EmptyString => []
  | String c rest => Z.of_nat (nat_of_ascii c) :: bytes_of_string rest
  end.

(** A hasher object is the bytes fed to it so far. *)
Definition hasher : Type := list Z.
Definition md5 : hasher := [].
Definition update (h : hasher) (data : string) : hasher :=
  (h ++ bytes_of_string data)%list.
Definition hexdigest (h : hasher) : string := hex (digest h).

End MD5.

(** ** The fingerprint: [hash_model] *)

(** The first argument of [hash_model]: a text buffer with its stream
    position, a loaded model with the text [idfstr()] gives, or a file
    name. Text is kept as its UTF-8 bytes. *)
Inductive model_ref : Type :=
| StringIO (buffer : string) (position : nat)
| IDFModel (idfstr : string)
| FileName (path : string).

(** [io.StringIO.read()]: the text from the stream position on. *)
Definition StringIO_read (buffer : string) (position : nat) : string :=
  String.substring position (String.length buffer - position) buffer.

(** Keyword values with their [repr]: [None], booleans and integers. *)
Inductive kwval : Type :=
| KNone
| KBool (b : bool)
| KInt (z : Z).

Definition repr_kwval (v : kwval) : string :=
  match v with
  | KNone => "None"
  | KBool true => "True"
  | KBool false => "False"
  | KInt z => pretty z
  end.

Section Fingerprint.
(** The values of the keyword arguments and their [repr]. *)
Context {V : Type} (repr : V -> string).
(** [open(path, "rb").read()] *)
Context (open_rb : string -> result string).

(** A [dict] of keyword arguments, in insertion order. *)
Definition kwargs_t : Type := list (string * V).

(** [kwargs.pop(argument, None)] *)
Definition pop (argument : string) (kwargs : kwargs_t) : kwargs_t :=
  List.filter (fun kv => negb (String.eqb (fst kv) argument)) kwargs.

Definition no_impact : list string :=
  ["keep_data"; "keep_data_err"; "return_idf"; "return_files"].

(** [sorted(kwargs.items())]: the items are compared as tuples, and the
    keys of a dict are distinct, so the keys decide. *)
Fixpoint insert_item (x : string * V) (l : list (string * V)) : list (string * V) :=
  match l with
  | [] => [x]
  | y :: l' =>
      if String.leb (fst x) (fst y) then x :: y :: l' else y :: insert_item x l'
  end.

Definition sorted (items : list (string * V)) : list (string * V) :=
  fold_right insert_item [] items.

(** [repr] of a keyword, a [str] that is an identifier. *)
Definition repr_key (k : string) : string := "'" +:+ k +:+ "'".

(** [OrderedDict.__str__] (as printed up to Python 3.11). *)
Definition OrderedDict_str (items : list (string * V)) : string :=
  match items with
  | [] => "OrderedDict()"
  | _ =>
      "OrderedDict([" +:+
      join ", " (map (fun kv => "(" +:+ repr_key (fst kv) +:+ ", " +:+ repr (snd kv) +:+ ")") items)
      +:+ "])"
  end.

(** The text [kwargs.__str__()] that is hashed: the keyword arguments are
    only filtered, sorted and turned into an [OrderedDict] when the dict is
    not empty; an empty dict prints as [{}]. *)
Definition kwargs_str (kwargs : kwargs_t) : string :=
  match kwargs with
  | [] => "{}"
  | _ => OrderedDict_str (sorted (fold_left (fun kw argument => pop argument kw) no_impact kwargs))
  end.

Definition read_model (idfname : model_ref) : result string :=
  match idfname with
  | StringIO buffer _ => Ok (StringIO_read buffer 0)   (* seek(0); read() *)
  | IDFModel idfstr => Ok idfstr
  | FileName path => open_rb path
  end.

Definition hash_model (idfname : model_ref) (kwargs : kwargs_t) : result string :=
  let kwargs' := kwargs_str kwargs in
  rbind (read_model idfname) (fun buf =>
    let hasher := MD5.md5 in
    let hasher := MD5.update hasher buf in
    let hasher := MD5.update hasher kwargs' in
    Ok (MD5.hexdigest hasher)).
End Fingerprint.

(** ** The module-level migration functions *)

(** The keys of [trans_exec] with the program names, in the order of the
    dict literal of [_execute_transitions]. *)
Definition transition_names : list (string * string) :=
    [
      ("1-0-0", "Transition-V1-0-0-to-V1-0-1");
      ("1-0-1", "Transition-V1-0-1-to-V1-0-2");
      ("1-0-2", "Transition-V1-0-2-to-V1-0-3");
      ("1-0-3", "Transition-V1-0-3-to-V1-1-0");
      ("1-1-0", "Transition-V1-1-0-to-V1-1-1");
      ("1-1-1", "Transition-V1-1-1-to-V1-2-0");
      ("1-2-0", "Transition-V1-2-0-to-V1-2-1");
      ("1-2-1", "Transition-V1-2-1-to-V1-2-2");
      ("1-2-2", "Transition-V1-2-2-to-V1-2-3");
      ("1-2-3", "Transition-V1-2-3-to-V1-3-0");
      ("1-3-0", "Transition-V1-3-0-to-V1-4-0");
      ("1-4-0", "Transition-V1-4-0-to-V2-0-0");
      ("2-0-0", "Transition-V2-0-0-to-V2-1-0");
      ("2-1-0", "Transition-V2-1-0-to-V2-2-0");
      ("2-2-0", "Transition-V2-2-0-to-V3-0-0");
      ("3-0-0", "Transition-V3-0-0-to-V3-1-0");
      ("3-1-0", "Transition-V3-1-0-to-V4-0-0");
      ("4-0-0", "Transition-V4-0-0-to-V5-0-0");
      ("5-0-0", "Transition-V5-0-0-to-V6-0-0");
      ("6-0-0", "Transition-V6-0-0-to-V7-0-0");
      ("7-0-0", "Transition-V7-0-0-to-V7-1-0");
      ("7-1-0", "Transition-V7-1-0-to-V7-2-0");
      ("7-2-0", "Transition-V7-2-0-to-V8-0-0");
      ("8-0-0", "Transition-V8-0-0-to-V8-1-0");
      ("8-1-0", "Transition-V8-1-0-to-V8-2-0");
      ("8-2-0", "Transition-V8-2-0-to-V8-3-0");
      ("8-3-0", "Transition-V8-3-0-to-V8-4-0");
      ("8-4-0", "Transition-V8-4-0-to-V8-5-0");
      ("8-5-0", "Transition-V8-5-0-to-V8-6-0");
      ("8-6-0", "Transition-V8-6-0-to-V8-7-0");
      ("8-7-0", "Transition-V8-7-0-to-V8-8-0");
      ("8-8-0", "Transition-V8-8-0-to-V8-9-0");
      ("8-9-0", "Transition-V8-9-0-to-V9-0-0");
      ("9-0-0", "Transition-V9-0-0-to-V9-1-0");
      ("9-1-0", "Transition-V9-1-0-to-V9-2-0") ].

Section Migration.
Context {World : Type} (os : OS World).
(** [get_eplus_dirs(settings.ep_version) / "PreProcess" / "IDFVersionUpdater"]
    and [".exe" if platform.system() == "Windows" else ""]. *)
Context (vupdater_path exe : string).

Definition trans_exec : list (string * string) :=
  map (fun kv => (fst kv, joinpath vupdater_path (snd kv) +:+ exe)) transition_names.

(** [d[key]] on the dict literal. *)
Fixpoint getitem (d : list (string * string)) (key : string) : result string :=
  match d with
  | [] => Raise (KeyError key)
  | (k, v) :: rest => if String.eqb k key then Ok v else getitem rest key
  end.

(** The list comprehension of [_execute_transitions]: the two tuples of a
    condition are built for every key, the second condition only when the
    first holds. *)
Fixpoint select_transitions (to_version versionid : string) (keys : list string)
  : result (list string) :=
  match keys with
  | [] => Ok []
  | key :: rest =>
      rbind (int_tuple "-" key) (fun k1 =>
      rbind (int_tuple "-" to_version) (fun t =>
        if tuple_lt k1 t then
          rbind (int_tuple "-" key) (fun k2 =>
          rbind (int_tuple "-" versionid) (fun v =>
            if tuple_ge k2 v then
              rbind (select_transitions to_version versionid rest) (fun l => Ok (key :: l))
            else select_transitions to_version versionid rest))
        else select_transitions to_version versionid rest))
  end.

(** [_execute_transitions(idf_file, to_version, versionid)] *)
Definition _execute_transitions (idf_file to_version versionid : string)
           (w : World) (tr : trace) : result unit * World * trace :=
  match select_transitions to_version versionid (map fst trans_exec) with
  | Raise e => (Raise e, w, tr)
  | Ok transitions =>
      transition_loop os (getitem trans_exec) to_version idf_file
                      (basename os idf_file) vupdater_path transitions w tr
  end.

(** What [_check_version] returns: the pair, or in the branch of the old
    versions the path of a copy. *)
Inductive checked : Type :=
| Versions (to_version versionid : string)
| Copied (path : string).

(** [_check_version(idf_file, to_version, out_dir)] *)
Definition _check_version (idf_file : string) (to_version : option string)
           (out_dir : string) (w : World) : result checked * World :=
  match get_idf_version os w idf_file false, get_idf_version os w idf_file true with
  | Raise e, _ => (Raise e, w)
  | _, Raise e => (Raise e, w)
  | Ok versionid_full, Ok doted_version =>
      let versionid := prefix_slice 5 versionid_full in
      let iddfile := getiddfile os doted_version in
      (* the comparison with [to_version] and the raise that follow both
         branches *)
      let use_to_version (w : World) : result checked * World :=
        match (match to_version with
               | None => latest_energyplus_version os w
               | Some t => Ok t
               end) with
        | Raise e => (Raise e, w)
        | Ok to_version =>
            if str_tuple_gt (split "-" versionid) (split "-" to_version) then
              (Raise (EnergyPlusVersionError [idf_file; versionid; to_version]), w)
            else (Ok (Versions to_version versionid), w)
        end in
      if path_exists os w iddfile then
        if bool_decide (Some versionid = to_version) then
          (Ok (Versions versionid versionid), w)
        else use_to_version w
      else
        match int_tuple "." doted_version with
        | Raise e => (Raise e, w)
        | Ok doted =>
            if tuple_lt doted [8; 0] then
              if bool_decide (Some versionid = to_version) then
                let '(copy, w') :=
                  path_copy os idf_file (joinpath out_dir (basename os idf_file)) w in
                (Ok (Copied copy), w')
              else use_to_version w
            else use_to_version w
        end
  end.

(** The loop that retrieves the [*.idfnew] file left in [tmp]. *)
Definition retrieve_transitioned (out_dir idf_file : string) (overwrite : bool)
           (tmp : string) (w : World) : option string * World :=
  fold_left
    (fun acc f =>
       let '(_, w0) := acc in
       let '(file, w1) :=
         if overwrite then path_copy os f (joinpath out_dir (basename os idf_file)) w0
         else path_copy os f out_dir w0 in
       (Some file, w1))
    (path_files os w tmp "*.idfnew") (None, w).

(** [to_version, versionid = _check_version(...)]: a path, being a string,
    only unpacks when it has two characters. *)
Definition unpack_pair (c : checked) : result (string * string) :=
  match c with
  | Versions to_version versionid => Ok (to_version, versionid)
  | Copied (String a (String b EmptyString)) =>
      Ok (String a EmptyString, String b EmptyString)
  | Copied (String _ (String _ (String _ _))) =>
      Raise (ValueError "too many values to unpack (expected 2)")
  | Copied _ => Raise (ValueError "not enough values to unpack")
  end.

(** [idf_version_updater(idf_file, to_version, out_dir, simulname, overwrite)] *)
Definition idf_version_updater (idf_file : string) (to_version : option string)
           (out_dir : option string) (simulname : option string) (overwrite : bool)
           (w : World) : result string * World * trace :=
  let out_dir :=
    match out_dir with
    | Some d => if bool_decide (d = "") then dirname os idf_file else d
    | None => dirname os idf_file
    end in
  let w :=
    if negb (path_isdir os w out_dir) && negb (bool_decide (out_dir = ""))
    then makedirs_p os out_dir w else w in
  match _check_version idf_file to_version out_dir w with
  | (Raise e, w) => (Raise e, w, [])
  | (Ok c, w) =>
      match unpack_pair c with
      | Raise e => (Raise e, w, [])
      | Ok (to_version, versionid) =>
          if String.eqb versionid to_version then (Ok idf_file, w, [])
          else
            let '(tmp, w1) := mkdtemp os "transition_run_" simulname out_dir w in
            let '(copied, w2) := path_copy os idf_file tmp w1 in
            let idf_file := abspath os copied in
            match _execute_transitions idf_file to_version versionid w2 [] with
            | (Raise e, w3, tr) => (Raise e, cleanup os tmp w3, tr)
            | (Ok _, w3, tr) =>
                let '(file, w4) := retrieve_transitioned out_dir idf_file overwrite tmp w3 in
                match file with
                | Some file => (Ok file, cleanup os tmp w4, tr)
                | None => (Raise (UnboundLocalError "file"), cleanup os tmp w4, tr)
                end
            end
      end
  end.
End Migration.

(** ** Running EnergyPlus: [_run_exec] *)

(** What [_run_exec] needs from the operating system and from eppy. *)
Record RunOS (World : Type) : Type := {
  (** [eppy.runner.run_functions.install_paths(version, iddname)]:
      the executable and the weather directory *)
  install_paths : string -> string -> string * string;
  (** [os.path.isfile] *)
  isfile : World -> string -> bool;
  (** [os.path.abspath] in the current directory *)
  run_abspath : World -> string -> string;
  (** [with tmp.abspath() as tmp]: the working directory is changed *)
  chdir : string -> World -> World;
  (** the subprocess, from [Popen] to [process.wait()]: its return code *)
  run_process : list string -> World -> Z * World;
  (** [open(path, "r").read()] *)
  read_text : World -> string -> result string;
  (** [Path.mkdir_p()] and [Path.copytree(dst)]: both may raise (a missing
      parent, a destination that is already there) *)
  mkdir_p : string -> World -> result unit * World;
  copytree : string -> string -> World -> result unit * World;
  run_basename : string -> string
}.
Arguments install_paths {World}.
Arguments isfile {World}.
Arguments run_abspath {World}.
Arguments chdir {World}.
Arguments run_process {World}.
Arguments read_text {World}.
Arguments mkdir_p {World}.
Arguments copytree {World}.
Arguments run_basename {World}.

(** A value of the dict [args]: a flag or a text. *)
Inductive argval : Type :=
| ArgBool (b : bool)
| ArgStr (s : string).

(** [if args[arg]] *)
Definition truthy (v : argval) : bool :=
  match v with
  | ArgBool b => b
  | ArgStr s => negb (bool_decide (s = ""))
  end.

(** The parameters of [_run_exec]. *)
Record run_params : Type := {
  tmp : string;
  eplus_file : string;
  weather : string;
  run_output_directory : string;
  annual : bool;
  design_day : bool;
  idd : string;
  epmacro : bool;
  expandobjects : bool;
  readvars : bool;
  output_prefix : string;
  output_suffix : string;
  version : bool;
  verbose : string;
  ep_version : string;
  keep_data_err : bool
}.

Section RunExec.
Context {World : Type} (os : RunOS World).

(** The loop over [args] that extends [cmd]: a true flag gives its name,
    a text gives its name and the text. *)
Definition command_line_arguments (args : list (string * argval)) : list string :=
  flat_map
    (fun kv =>
       let '(arg, v) := kv in
       if truthy v then
         let v' := match v with ArgBool _ => "" | ArgStr s => s end in
         (("--" +:+ replace "_" "-" arg) ::
            (if bool_decide (v' = "") then [] else [v']))%list
       else [])
    args.

(** [_run_exec], first the list [cmd] of the simulation. The keys left in
    [args] after the pops are, in the order of the parameters: weather,
    annual, design_day, epmacro, expandobjects, readvars, output_prefix,
    output_suffix, version; the weather file is made absolute. *)
Definition energyplus_command (p : run_params) (w : World) : list string :=
  let idf_path := run_abspath os w (eplus_file p) in
  let '(eplus_exe_path, eplus_weather_path) := install_paths os (ep_version p) (idd p) in
  let weather' :=
    if isfile os w (weather p) then run_abspath os w (weather p)
    else joinpath eplus_weather_path (weather p) in
  let args :=
    [ ("weather", ArgStr weather');
      ("annual", ArgBool (annual p));
      ("design_day", ArgBool (design_day p));
      ("epmacro", ArgBool (epmacro p));
      ("expandobjects", ArgBool (expandobjects p));
      ("readvars", ArgBool (readvars p));
      ("output_prefix", ArgStr (output_prefix p));
      ("output_suffix", ArgStr (output_suffix p));
      ("version", ArgBool (version p)) ] in
  ([eplus_exe_path] ++ command_line_arguments args ++ [idf_path])%list.

(** The block under [if keep_data_err:]: the directory of the run is copied
    to [<output_directory>/failed/<output_prefix>]. *)
Definition keep_failed_run (p : run_params) (tmp : string) (w : World)
  : result unit * World :=
  if keep_data_err p then
    let failed_dir := joinpath (run_output_directory p) "failed" in
    match mkdir_p os failed_dir w with
    | (Raise e, w') => (Raise e, w')
    | (Ok _, w') => copytree os tmp (joinpath failed_dir (output_prefix p)) w'
    end
  else (Ok tt, w).

(** The function: the early exits, then the list [cmd] above is run in
    [tmp] and its return code is examined. The [try] block holds the read
    of the error file, the copy of the run and the [raise]; its handler
    turns every [FileNotFoundError] into [CalledProcessError]. *)
Definition _run_exec (p : run_params) (w : World) : result unit * World :=
  let iddname := idd p in
  if bool_decide (ep_version p = "") then
    (Raise (AttributeError
              "The as_version must be set when passing an IDF path.                 Alternatively, use IDF.run()"), w)
  else
    let '(eplus_exe_path, eplus_weather_path) := install_paths os (ep_version p) iddname in
    if version p then
      (* subprocess.check_call(cmd) *)
      let cmd := [eplus_exe_path; "--version"] in
      let '(code, w') := run_process os cmd w in
      if code =? 0 then (Ok tt, w')
      else (Raise (CalledProcessError code (CmdArgv cmd)), w')
    else
      let cmd := energyplus_command p w in
      let tmp := run_abspath os w (tmp p) in
      let w1 := chdir os tmp w in
      let '(return_code, w2) := run_process os cmd w1 in
      if negb (return_code =? 0) then
        let error_filename := output_prefix p +:+ "out.err" in
        let '(tried, w3) :=
          match read_text os w2 error_filename return result unit * World with
          | Ok stderr_r =>
              match keep_failed_run p tmp w2 with
              | (Ok _, w3) =>
                  (Raise (EnergyPlusProcessError (CmdArgv cmd) stderr_r
                            (run_basename os (eplus_file p))), w3)
              | (Raise e, w3) => (Raise e, w3)
              end
          | Raise e => (Raise e, w2)
          end in
        match tried with
        | Raise (FileNotFoundError _) =>
            (Raise (CalledProcessError return_code (CmdArgv cmd)), w3)
        | _ => (tried, w3)
        end
      else (Ok tt, w2).
End RunExec.

(** ** The HTML report reader *)

Section Reports.
(** The cells of the tables of [readhtml.titletable]. *)
Context {Cell : Type}.

(** A table of the report: its rows. *)
Definition html_table : Type := list (list Cell).

(** A [pandas.DataFrame]: column labels, and rows with their index label;
    a missing cell is [None]. *)
Record DataFrame : Type := {
  columns : list (option Cell);
  index : list Z;
  values : list (list (option Cell))
}.

Definition pad_row (width : nat) (row : list Cell) : list (option Cell) :=
  (map Some row ++ repeat None (width - List.length row))%list.

(** [df = pd.DataFrame(table); df.rename(columns=df.iloc[0]).drop(df.index[0])]:
    the first row becomes the header. *)
Definition to_dataframe (table : html_table) : result DataFrame :=
  let width := fold_right Nat.max 0%nat (map (@List.length Cell) table) in
  match map (pad_row width) table with
  | [] => Raise (IndexError "single positional indexer is out-of-bounds")
  | header :: body =>
      Ok {| columns := header;
            index := map Z.of_nat (seq 1 (List.length body));
            values := body |}
  end.

(** [summary_reports_to_dataframes(reports_list)] *)
Definition summary_reports_to_dataframes (reports_list : list (string * html_table))
  : result (gmap string DataFrame) :=
  fold_left
    (fun acc table =>
       rbind acc (fun results_dict =>
         let key := fst table in
         let key := if bool_decide (is_Some (results_dict !! key)) then key +:+ "_" else key in
         rbind (to_dataframe (snd table)) (fun df =>
           Ok (<[key := df]> results_dict))))
    reports_list (Ok ∅).
End Reports.

(** * Verified properties *)

(** ** The attribute-write interceptor *)

(** Replaces a closed term by its value. *)
Ltac evaluate t :=
  let v := eval vm_compute in t in
  replace t with v by (vm_compute; reflexivity).

Section SetattrFacts.
Import IDF.
Context (env : Env).

Lemma class_property_private (key : string) :
  In key ["_idfname"; "_epw"; "_as_version"] -> class_property key = None.
Proof.
  intros H. repeat (destruct H as [<- | H]; [vm_compute; reflexivity |]).
  destruct H.
Qed.

Lemma class_property_settable key :
  In key ["idfname"; "epw"; "as_version"] -> class_property key = Some true.
Proof.
  intros H. repeat (destruct H as [<- | H]; [vm_compute; reflexivity |]).
  destruct H.
Qed.

Lemma private_not_in_tables (key : string) :
  In key ["_idfname"; "_epw"; "_as_version"] ->
  bool_decide (key ∈ _dependant_vars) = false
  /\ bool_decide (key ∈ _independant_vars) = false.
Proof.
  intros H. repeat (destruct H as [<- | H]; [split; vm_compute; reflexivity |]).
  destruct H.
Qed.

Lemma settable_in_tables (key : string) :
  In key ["idfname"; "epw"; "as_version"] ->
  bool_decide (key ∈ _dependant_vars) = false
  /\ bool_decide (key ∈ _independant_vars) = true.
Proof.
  intros H. repeat (destruct H as [<- | H]; [split; vm_compute; reflexivity |]).
  destruct H.
Qed.

(** A write to a name that is neither a property nor in the dependency
    table is the plain slot write. *)
Lemma setattr_private depth key value st :
  In key ["_idfname"; "_epw"; "_as_version"] ->
  __setattr__ env (S depth) key value st = Some (Ok tt, <[key := value]> st).
Proof.
  intros H. cbn [__setattr__]. rewrite (class_property_private _ H).
  unfold __set_on_dependencies.
  destruct (private_not_in_tables _ H) as [-> ->]. reflexivity.
Qed.

Lemma set_on_dependencies_settable key value st :
  In key ["idfname"; "epw"; "as_version"] ->
  __set_on_dependencies key value st =
  bind (_reset_dependant_vars key)
       (fun _ => object_setattr ("_" +:+ key) value) st.
Proof.
  intros H. unfold __set_on_dependencies.
  destruct (settable_in_tables _ H) as [-> ->]. reflexivity.
Qed.

Lemma reset_idfname st :
  _reset_dependant_vars "idfname" st =
  Some (Ok tt,
        <["_htm" := PyNone]> (<["_sql" := PyNone]> (<["_model" := PyNone]>
        (<["_block" := PyNone]> (<["_idfobjects" := PyNone]>
        (<["_idd_version" := PyNone]> (<["_idd_index" := PyNone]>
        (<["_idd_info" := PyNone]> (<["_file_version" := PyNone]>
        (<["_iddname" := PyNone]> st)))))))))).
Proof.
  unfold _reset_dependant_vars.
  evaluate (_reverse_dependencies !! "idfname").
  reflexivity.
Qed.

Lemma reset_epw st :
  _reset_dependant_vars "epw" st =
  Some (Ok tt, <["_htm" := PyNone]> (<["_sql" := PyNone]> st)).
Proof.
  unfold _reset_dependant_vars.
  evaluate (_reverse_dependencies !! "epw").
  reflexivity.
Qed.

Lemma reset_as_version st :
  _reset_dependant_vars "as_version" st =
  Some (Ok tt, <["_htm" := PyNone]> (<["_sql" := PyNone]> (<["_iddname" := PyNone]> st))).
Proof.
  unfold _reset_dependant_vars.
  evaluate (_reverse_dependencies !! "as_version").
  reflexivity.
Qed.

(** What [addidfobject] and [removeidfobject] call after they change the
    objects of the model. *)
Lemma reset_idfobjects st :
  _reset_dependant_vars "idfobjects" st
  = Some (Ok tt, <["_schedules_dict" := PyNone]> st).
Proof.
  unfold _reset_dependant_vars.
  evaluate (_reverse_dependencies !! "idfobjects").
  reflexivity.
Qed.

(** A write of [idfname] completes as soon as the path expands and the
    interceptor may be entered twice. *)
Lemma setattr_idfname_run depth value p st :
  Path_expand env value = Ok p ->
  __setattr__ env (S (S depth)) "idfname" value st
  = Some (Ok tt,
          <["_idfname" := value]>
          (<["_htm" := PyNone]> (<["_sql" := PyNone]> (<["_model" := PyNone]>
          (<["_block" := PyNone]> (<["_idfobjects" := PyNone]>
          (<["_idd_version" := PyNone]> (<["_idd_index" := PyNone]>
          (<["_idd_info" := PyNone]> (<["_file_version" := PyNone]>
          (<["_iddname" := PyNone]> (<["_idfname" := p]> st)))))))))))).
Proof.
  intros Hp. cbn [__setattr__].
  rewrite (class_property_settable "idfname") by (simpl; auto).
  unfold bind at 1. unfold fset. cbn [String.eqb Ascii.eqb Bool.eqb].
  unfold bind at 1, lift. rewrite Hp.
  rewrite (class_property_private "_idfname") by (simpl; auto).
  unfold __set_on_dependencies at 1.
  destruct (private_not_in_tables "_idfname") as [-> ->]; [simpl; auto |].
  unfold object_setattr at 1.
  rewrite set_on_dependencies_settable by (simpl; auto).
  unfold bind. rewrite reset_idfname. reflexivity.
Qed.

Lemma setattr_epw_run depth value p st :
  Path_expand env value = Ok p ->
  __setattr__ env (S (S depth)) "epw" value st
  = Some (Ok tt,
          <["_epw" := value]>
          (<["_htm" := PyNone]> (<["_sql" := PyNone]> (<["_epw" := p]> st)))).
Proof.
  intros Hp. cbn [__setattr__].
  rewrite (class_property_settable "epw") by (simpl; auto).
  unfold bind at 1. unfold fset. cbn [String.eqb Ascii.eqb Bool.eqb].
  unfold bind at 1, lift. rewrite Hp.
  rewrite (class_property_private "_epw") by (simpl; auto).
  unfold __set_on_dependencies at 1.
  destruct (private_not_in_tables "_epw") as [-> ->]; [simpl; auto |].
  unfold object_setattr at 1.
  rewrite set_on_dependencies_settable by (simpl; auto).
  unfold bind. rewrite reset_epw. reflexivity.
Qed.

Lemma setattr_as_version_run depth value p st :
  parse env value = Ok p ->
  p ∈ valid_idds env ->
  __setattr__ env (S (S depth)) "as_version" value st
  = Some (Ok tt,
          <["_as_version" := value]>
          (<["_htm" := PyNone]> (<["_sql" := PyNone]> (<["_iddname" := PyNone]>
          (<["_as_version" := p]> st))))).
Proof.
  intros Hp Hvalid. cbn [__setattr__].
  rewrite (class_property_settable "as_version") by (simpl; auto).
  unfold bind at 1. unfold fset. cbn [String.eqb Ascii.eqb Bool.eqb].
  unfold bind at 1, lift. rewrite Hp.
  rewrite bool_decide_eq_true_2 by exact Hvalid.
  rewrite (class_property_private "_as_version") by (simpl; auto).
  unfold __set_on_dependencies at 1.
  destruct (private_not_in_tables "_as_version") as [-> ->]; [simpl; auto |].
  unfold object_setattr at 1.
  rewrite set_on_dependencies_settable by (simpl; auto).
  unfold bind. rewrite reset_as_version. reflexivity.
Qed.

(** The instance that a completed write of [idfname] leaves. *)
Lemma setattr_idfname_inv depth value st st' :
  __setattr__ env depth "idfname" value st = Some (Ok tt, st') ->
  exists p,
    st' = <["_idfname" := value]>
          (<["_htm" := PyNone]> (<["_sql" := PyNone]> (<["_model" := PyNone]>
          (<["_block" := PyNone]> (<["_idfobjects" := PyNone]>
          (<["_idd_version" := PyNone]> (<["_idd_index" := PyNone]>
          (<["_idd_info" := PyNone]> (<["_file_version" := PyNone]>
          (<["_iddname" := PyNone]> (<["_idfname" := p]> st))))))))))).
Proof.
  destruct depth as [| depth]; [discriminate |].
  cbn [__setattr__].
  rewrite (class_property_settable "idfname") by (simpl; auto).
  unfold bind at 1. unfold fset. cbn [String.eqb Ascii.eqb Bool.eqb].
  unfold bind at 1, lift.
  destruct (Path_expand env value) as [p | e]; [| discriminate].
  destruct depth as [| depth]; [discriminate |].
  rewrite setattr_private by (simpl; auto).
  rewrite set_on_dependencies_settable by (simpl; auto).
  unfold bind. rewrite reset_idfname.
  unfold object_setattr. intros [= <-]. eauto.
Qed.

Lemma setattr_epw_inv depth value st st' :
  __setattr__ env depth "epw" value st = Some (Ok tt, st') ->
  exists p,
    st' = <["_epw" := value]>
          (<["_htm" := PyNone]> (<["_sql" := PyNone]> (<["_epw" := p]> st))).
Proof.
  destruct depth as [| depth]; [discriminate |].
  cbn [__setattr__].
  rewrite (class_property_settable "epw") by (simpl; auto).
  unfold bind at 1. unfold fset. cbn [String.eqb Ascii.eqb Bool.eqb].
  unfold bind at 1, lift.
  destruct (Path_expand env value) as [p | e]; [| discriminate].
  destruct depth as [| depth]; [discriminate |].
  rewrite setattr_private by (simpl; auto).
  rewrite set_on_dependencies_settable by (simpl; auto).
  unfold bind. rewrite reset_epw.
  unfold object_setattr. intros [= <-]. eauto.
Qed.

Lemma setattr_as_version_inv depth value st st' :
  __setattr__ env depth "as_version" value st = Some (Ok tt, st') ->
  exists p,
    st' = <["_as_version" := value]>
          (<["_htm" := PyNone]> (<["_sql" := PyNone]> (<["_iddname" := PyNone]>
          (<["_as_version" := p]> st)))).
Proof.
  destruct depth as [| depth]; [discriminate |].
  cbn [__setattr__].
  rewrite (class_property_settable "as_version") by (simpl; auto).
  unfold bind at 1. unfold fset. cbn [String.eqb Ascii.eqb Bool.eqb].
  unfold bind at 1, lift.
  destruct (parse env value) as [p | e]; [| discriminate].
  case_bool_decide; [| discriminate].
  destruct depth as [| depth]; [discriminate |].
  rewrite setattr_private by (simpl; auto).
  rewrite set_on_dependencies_settable by (simpl; auto).
  unfold bind. rewrite reset_as_version.
  unfold object_setattr. intros [= <-]. eauto.
Qed.
End SetattrFacts.

(** An environment and an instance used to run the interceptor on concrete
    inputs: paths expand to themselves, and 9-2-0 is the installed version. *)
Definition example_env : IDF.Env :=
  {| IDF.Path_expand := fun v => Ok v;
     IDF.parse := fun v => Ok v;
     IDF.valid_idds := [PyStr "9-2-0"] |}.

Definition example_instance : IDF.instance :=
  <["_schedules_dict" := PyObj 7]>
    (<["_sql" := PyObj 3]>
       (<["_annual" := PyBool false]>
          (<["_idfname" := PyStr "a.idf"]> ∅))).

(** The instance after [self.idfname = "b.idf"] on [example_instance]. *)
Definition after_idfname_write : IDF.instance :=
  <["_idfname" := PyStr "b.idf"]>
    (<["_htm" := PyNone]> (<["_sql" := PyNone]> (<["_model" := PyNone]>
    (<["_block" := PyNone]> (<["_idfobjects" := PyNone]>
    (<["_idd_version" := PyNone]> (<["_idd_index" := PyNone]>
    (<["_idd_info" := PyNone]> (<["_file_version" := PyNone]>
    (<["_iddname" := PyNone]> (<["_idfname" := PyStr "b.idf"]> example_instance))))))))))).

Lemma setattr_idfname_example :
  IDF.__setattr__ example_env 2 "idfname" (PyStr "b.idf") example_instance
  = Some (Ok tt, after_idfname_write).
Proof. vm_compute. reflexivity. Qed.

(** C1 (the code at the failing input): [schedules_dict] depends on
    [idfobjects], which depends on [idfname]; yet a write [self.idfname = value]
    on an instance that holds a cached [schedules_dict] completes, unsets the
    slot of [idfobjects] and leaves the cached value in the slot of
    [schedules_dict]. The reset of [addidfobject] and [removeidfobject],
    [_reset_dependant_vars("idfobjects")], does unset that slot. And a write
    to [annual] or [design_day], which [_dependencies] lists among the
    independent attributes, resets nothing: it raises [AttributeError] and
    leaves the instance as it was, these two being properties without a
    setter. *)
Theorem setattr_idfname_keeps_schedules_dict
  (env : IDF.Env) (depth : nat) (value p cached : pyval) (st : IDF.instance) :
  IDF.Path_expand env value = Ok p ->
  st !! "_schedules_dict" = Some cached ->
  In ("schedules_dict", ["idfobjects"]) IDF._dependencies
  /\ In ("idfobjects", ["iddname"; "idfname"]) IDF._dependencies
  /\ (exists st',
        IDF.__setattr__ env (S (S depth)) "idfname" value st = Some (Ok tt, st')
        /\ st' !! "_idfobjects" = Some PyNone
        /\ st' !! "_schedules_dict" = Some cached)
  /\ IDF._reset_dependant_vars "idfobjects" st
     = Some (Ok tt, <["_schedules_dict" := PyNone]> st)
  /\ (forall x, In x ["annual"; "design_day"] ->
        x ∈ IDF._independant_vars
        /\ IDF.__setattr__ env (S depth) x value st
           = Some (Raise (AttributeError "Cannot set attribute"), st)).
Proof.
  intros Hp Hcached.
  split; [simpl; auto 20 |]. split; [simpl; auto 20 |]. split; [| split].
  - eexists. split; [exact (setattr_idfname_run env depth value p st Hp) |].
    split; by simplify_map_eq.
  - apply reset_idfobjects.
  - intros x Hx. split.
    + repeat (destruct Hx as [<- | Hx];
              [refine (bool_decide_unpack _ _); vm_compute; exact I |]).
      destruct Hx.
    + cbn [IDF.__setattr__].
      assert (IDF.class_property x = Some false) as ->; [| reflexivity].
      repeat (destruct Hx as [<- | Hx]; [vm_compute; reflexivity |]). destruct Hx.
Qed.

Lemma setattr_idfname_keeps_schedules_dict_witness :
  exists st',
    IDF.__setattr__ example_env 2 "idfname" (PyStr "b.idf") example_instance
    = Some (Ok tt, st')
    /\ st' !! "_idfobjects" = Some PyNone
    /\ st' !! "_schedules_dict" = Some (PyObj 7).
Proof.
  exact (proj1 (proj2 (proj2
           (setattr_idfname_keeps_schedules_dict example_env 0 (PyStr "b.idf")
              (PyStr "b.idf") (PyObj 7) example_instance eq_refl eq_refl)))).
Defined.

(** What a setter needs of the value: its path expands ([idfname], [epw]),
    or it parses to one of the valid IDD versions ([as_version]). *)
Definition setter_accepts (env : IDF.Env) (x : string) (value : pyval) : Prop :=
  if String.eqb x "as_version"
  then exists p, IDF.parse env value = Ok p /\ p ∈ IDF.valid_idds env
  else exists p, IDF.Path_expand env value = Ok p.

(** The look-up of a key that differs from every key written. *)
Ltac untouched_key Hne Hdirect :=
  repeat (rewrite lookup_insert_ne;
          [| intros Heq; symmetry in Heq; revert Heq;
             first [ exact Hne
                   | refine (Hdirect _ _ _ _); [simpl; eauto 20 | simpl; auto 20] ] ]).

(** For each independent attribute [x] that has a property setter
    ([idfname], [epw], [as_version]) and each value that the setter accepts,
    the write [self.x = value] returns; it leaves unset (None) the slot of
    every dependent attribute [d] whose dependency list in [_dependencies]
    names [x], leaves [value] in the slot of [x], and changes no other
    slot. *)
Theorem setattr_resets_direct_dependents
  (env : IDF.Env) (depth : nat) (x : string) (value : pyval) (st : IDF.instance) :
  In x ["idfname"; "epw"; "as_version"] ->
  setter_accepts env x value ->
  exists st',
    IDF.__setattr__ env (S (S depth)) x value st = Some (Ok tt, st')
    /\ (forall d deps, In (d, deps) IDF._dependencies -> In x deps ->
                       st' !! ("_" +:+ d) = Some PyNone)
    /\ st' !! ("_" +:+ x) = Some value
    /\ (forall key,
          key <> "_" +:+ x ->
          (forall d deps, In (d, deps) IDF._dependencies -> In x deps ->
                          key <> "_" +:+ d) ->
          st' !! key = st !! key).
Proof.
  intros Hx Haccept.
  destruct Hx as [<- | [<- | [<- | []]]]; destruct Haccept as [p Hp].
  - eexists. split; [exact (setattr_idfname_run env depth value p st Hp) |].
    split; [| split].
    + intros d deps Hd Hin. unfold IDF._dependencies in Hd.
      repeat (destruct Hd as [[= <- <-] | Hd];
              [first [ by simplify_map_eq
                     | exfalso; simpl in Hin; intuition discriminate ] |]).
      destruct Hd.
    + by simplify_map_eq.
    + intros key Hne Hdirect. untouched_key Hne Hdirect. reflexivity.
  - eexists. split; [exact (setattr_epw_run env depth value p st Hp) |].
    split; [| split].
    + intros d deps Hd Hin. unfold IDF._dependencies in Hd.
      repeat (destruct Hd as [[= <- <-] | Hd];
              [first [ by simplify_map_eq
                     | exfalso; simpl in Hin; intuition discriminate ] |]).
      destruct Hd.
    + by simplify_map_eq.
    + intros key Hne Hdirect. untouched_key Hne Hdirect. reflexivity.
  - destruct Hp as [Hp Hvalid].
    eexists. split; [exact (setattr_as_version_run env depth value p st Hp Hvalid) |].
    split; [| split].
    + intros d deps Hd Hin. unfold IDF._dependencies in Hd.
      repeat (destruct Hd as [[= <- <-] | Hd];
              [first [ by simplify_map_eq
                     | exfalso; simpl in Hin; intuition discriminate ] |]).
      destruct Hd.
    + by simplify_map_eq.
    + intros key Hne Hdirect. untouched_key Hne Hdirect. reflexivity.
Qed.

Lemma setattr_resets_direct_dependents_witness :
  exists st',
    IDF.__setattr__ example_env 2 "epw" (PyStr "montreal.epw") example_instance
    = Some (Ok tt, st')
    /\ st' !! "_sql" = Some PyNone
    /\ st' !! "_epw" = Some (PyStr "montreal.epw")
    /\ st' !! "_schedules_dict" = Some (PyObj 7).
Proof.
  destruct (setattr_resets_direct_dependents example_env 0 "epw" (PyStr "montreal.epw")
              example_instance ltac:(simpl; auto)
              (ex_intro _ (PyStr "montreal.epw") eq_refl))
    as (st' & Hrun & Hreset & Hvalue & Hframe).
  exists st'. split; [exact Hrun |]. split; [| split].
  - exact (Hreset "sql" ["as_version"; "annual"; "design_day"; "epw"; "idfname"; "iddname"]
             ltac:(simpl; auto 20) ltac:(simpl; auto 20)).
  - exact Hvalue.
  - rewrite (Hframe "_schedules_dict").
    + reflexivity.
    + discriminate.
    + intros d deps Hd Hin. unfold IDF._dependencies in Hd.
      repeat (destruct Hd as [[= <- <-] | Hd];
              [first [ discriminate
                     | exfalso; simpl in Hin; intuition discriminate ] |]).
      destruct Hd.
Defined.

(** C4: a write to any dependent attribute (a key of [_dependencies]) raises
    [AttributeError] and leaves the instance as it was; the guard of
    [__set_on_dependencies] refuses the same names. *)
Theorem setattr_dependent_raises
  (env : IDF.Env) (depth : nat) (key : string) (value : pyval) (st : IDF.instance) :
  In key ["iddname"; "file_version"; "idd_info"; "idd_index"; "idd_version";
          "idfobjects"; "block"; "model"; "sql"; "htm"; "schedules_dict"] ->
  In key (map fst IDF._dependencies)
  /\ IDF.__setattr__ env (S depth) key value st
     = Some (Raise (AttributeError "Cannot set attribute"), st)
  /\ IDF.__set_on_dependencies key value st
     = Some (Raise (AttributeError "Cannot set this value."), st).
Proof.
  intros H.
  assert (Hprop : IDF.class_property key = Some false).
  { repeat (destruct H as [<- | H]; [vm_compute; reflexivity |]). destruct H. }
  assert (Hdep : bool_decide (key ∈ IDF._dependant_vars) = true).
  { repeat (destruct H as [<- | H]; [vm_compute; reflexivity |]). destruct H. }
  split; [| split].
  - repeat (destruct H as [<- | H]; [simpl; auto 20 |]). destruct H.
  - cbn [IDF.__setattr__]. by rewrite Hprop.
  - unfold IDF.__set_on_dependencies. by rewrite Hdep.
Qed.

Lemma setattr_dependent_raises_witness :
  IDF.__setattr__ example_env 1 "schedules_dict" (PyObj 1) example_instance
  = Some (Raise (AttributeError "Cannot set attribute"), example_instance).
Proof.
  apply (setattr_dependent_raises example_env 0 "schedules_dict" (PyObj 1) example_instance).
  simpl; auto 20.
Defined.

(** C10: [setiddname] raises [AttributeError] at its first statement, for
    every instance and argument, and the instance is left as it was. *)
Theorem setiddname_raises
  (env : IDF.Env) (depth : nat) (iddname : pyval) (st : IDF.instance) :
  IDF.setiddname env (S depth) iddname st
  = Some (Raise (AttributeError "Cannot set attribute"), st).
Proof.
  unfold IDF.setiddname, IDF.bind. cbn [IDF.__setattr__].
  evaluate (IDF.class_property "iddname"). reflexivity.
Qed.

(** ** The fingerprint *)

Section SortedItems.
Context {V : Type}.
Implicit Types (x y : string * V) (l : list (string * V)).

Definition key_le x y : Prop := String.leb (fst x) (fst y) = true.

Lemma leb_refl (a : string) : String.leb a a = true.
Proof.
  unfold String.leb.
  pose proof (proj2 (String_as_OT.cmp_eq a a) eq_refl) as H.
  unfold String_as_OT.cmp in H. by rewrite H.
Qed.

Lemma leb_trans (a b c : string) :
  String.leb a b = true -> String.leb b c = true -> String.leb a c = true.
Proof.
  unfold String.leb. intros Hab Hbc.
  destruct (String.compare a b) eqn:Eab; [| | discriminate].
  - apply String_as_OT.cmp_eq in Eab. by subst.
  - destruct (String.compare b c) eqn:Ebc; [| | discriminate].
    + apply String_as_OT.cmp_eq in Ebc. subst. by rewrite Eab.
    + apply String_as_OT.cmp_lt in Eab, Ebc.
      pose proof (String_as_OT.lt_trans _ _ _ Eab Ebc) as Hac.
      apply String_as_OT.cmp_lt in Hac.
      unfold String_as_OT.cmp in Hac. by rewrite Hac.
Qed.

Lemma insert_item_perm x l : Permutation (insert_item x l) (x :: l).
Proof.
  induction l as [| y l IH]; simpl; [done |].
  destruct (String.leb (fst x) (fst y)); [done |].
  rewrite IH. apply perm_swap.
Qed.

Lemma sorted_perm l : Permutation (sorted l) l.
Proof.
  induction l as [| x l IH]; simpl; [done |].
  rewrite insert_item_perm. by constructor.
Qed.

Lemma insert_item_sorted x l :
  StronglySorted key_le l -> StronglySorted key_le (insert_item x l).
Proof.
  induction 1 as [| y l Hs IH Hall]; simpl.
  - repeat constructor.
  - destruct (String.leb (fst x) (fst y)) eqn:Hxy.
    + constructor; [by constructor |].
      constructor; [exact Hxy |].
      eapply Forall_impl; [exact Hall |].
      intros z Hyz. eapply leb_trans; [exact Hxy | exact Hyz].
    + constructor; [exact IH |].
      eapply Permutation_Forall; [symmetry; apply insert_item_perm |].
      constructor; [| exact Hall].
      destruct (String.leb_total (fst x) (fst y)) as [H | H]; [congruence | exact H].
Qed.

Lemma sorted_sorted l : StronglySorted key_le (sorted l).
Proof.
  induction l as [| x l IH]; simpl; [constructor |].
  by apply insert_item_sorted.
Qed.

(** Two lists of items sorted by key, with the same items and no key
    twice, are the same list. *)
Lemma sorted_unique l1 l2 :
  StronglySorted key_le l1 -> StronglySorted key_le l2 ->
  Permutation l1 l2 -> List.NoDup (map fst l1) -> l1 = l2.
Proof.
  intros Hs1. revert l2.
  induction Hs1 as [| a l1 Hs1 IH Ha]; intros l2 Hs2 Hp Hnd.
  - by apply Permutation_nil in Hp.
  - destruct Hs2 as [| b l2 Hs2 Hb].
    + symmetry in Hp. by apply Permutation_nil in Hp.
    + assert (Hab : key_le a b).
      { assert (Hin : In b (a :: l1)).
        { eapply Permutation_in; [symmetry; exact Hp | by left]. }
        destruct Hin as [-> | Hin]; [apply leb_refl |].
        rewrite List.Forall_forall in Ha. by apply Ha. }
      assert (Hba : key_le b a).
      { assert (Hin : In a (b :: l2)).
        { eapply Permutation_in; [exact Hp | by left]. }
        destruct Hin as [-> | Hin]; [apply leb_refl |].
        rewrite List.Forall_forall in Hb. by apply Hb. }
      assert (Hkey : fst a = fst b) by (by apply String.leb_antisym).
      assert (Heq : a = b).
      { assert (Hin : In b (a :: l1)).
        { eapply Permutation_in; [symmetry; exact Hp | by left]. }
        destruct Hin as [-> | Hin]; [done |].
        exfalso. simpl in Hnd. apply List.NoDup_cons_iff in Hnd as [Hnotin _].
        apply Hnotin. rewrite Hkey. by apply in_map. }
      subst b. f_equal. apply IH.
      * exact Hs2.
      * by apply Permutation_cons_inv in Hp.
      * simpl in Hnd. by apply List.NoDup_cons_iff in Hnd as [_ ?].
Qed.

Lemma pop_perm argument l1 l2 :
  Permutation l1 l2 -> Permutation (pop argument l1) (pop argument l2).
Proof.
  unfold pop. induction 1 as [| x l l' _ IH | x y l | l l' l'' _ IH1 _ IH2]; simpl.
  - done.
  - destruct (negb _); [by constructor | done].
  - destruct (negb (String.eqb (fst x) argument)),
             (negb (String.eqb (fst y) argument)); try done.
    apply perm_swap.
  - by etrans.
Qed.

Lemma pop_NoDup argument l :
  List.NoDup (map fst l) -> List.NoDup (map fst (pop argument l)).
Proof.
  unfold pop. induction l as [| x l IH]; simpl; [done |].
  intros Hnd. apply List.NoDup_cons_iff in Hnd as [Hnotin Hnd].
  destruct (negb _); simpl; [| by apply IH].
  apply List.NoDup_cons_iff. split; [| by apply IH].
  intros Hin. apply Hnotin.
  apply in_map_iff in Hin as (y & Hy & Hin).
  apply filter_In in Hin as [Hin _].
  apply in_map_iff. by exists y.
Qed.

Lemma pops_perm (args : list string) l1 l2 :
  Permutation l1 l2 ->
  Permutation (fold_left (fun kw argument => pop argument kw) args l1)
              (fold_left (fun kw argument => pop argument kw) args l2).
Proof.
  revert l1 l2. induction args as [| a args IH]; intros l1 l2 Hp; simpl; [done |].
  by apply IH, pop_perm.
Qed.

Lemma pops_NoDup (args : list string) l :
  List.NoDup (map fst l) ->
  List.NoDup (map fst (fold_left (fun kw argument => pop argument kw) args l)).
Proof.
  revert l. induction args as [| a args IH]; intros l Hnd; simpl; [done |].
  by apply IH, pop_NoDup.
Qed.

(** The text that is hashed does not depend on the insertion order. *)
Lemma kwargs_str_perm (repr : V -> string) l1 l2 :
  List.NoDup (map fst l1) -> Permutation l1 l2 ->
  kwargs_str repr l1 = kwargs_str repr l2.
Proof.
  intros Hnd Hp. unfold kwargs_str.
  destruct l1 as [| x1 l1].
  { by apply Permutation_nil in Hp as ->. }
  destruct l2 as [| x2 l2].
  { symmetry in Hp. by apply Permutation_nil in Hp. }
  f_equal. apply sorted_unique.
  - apply sorted_sorted.
  - apply sorted_sorted.
  - rewrite !sorted_perm. by apply pops_perm.
  - eapply Permutation_NoDup.
    + apply Permutation_map. symmetry. apply sorted_perm.
    + by apply pops_NoDup.
Qed.
End SortedItems.

(** C2: the digest of [hash_model] does not depend on the order in which the
    keyword arguments were inserted: two dicts (no key twice) with the same
    items give the same result. *)
Theorem hash_model_kwargs_order_independent
  {V : Type} (repr : V -> string) (open_rb : string -> result string)
  (idfname : model_ref) (kwargs1 kwargs2 : list (string * V)) :
  List.NoDup (map fst kwargs1) ->
  Permutation kwargs1 kwargs2 ->
  hash_model repr open_rb idfname kwargs1 = hash_model repr open_rb idfname kwargs2.
Proof.
  intros Hnd Hp. unfold hash_model.
  by rewrite (kwargs_str_perm repr kwargs1 kwargs2 Hnd Hp).
Qed.

(** No file on the disk. *)
Definition no_file (path : string) : result string := Raise (FileNotFoundError path).

Lemma hash_model_kwargs_order_independent_witness :
  hash_model repr_kwval no_file (StringIO "Version,9.2;" 0) [("a", KInt 1); ("b", KInt 2)]
  = hash_model repr_kwval no_file (StringIO "Version,9.2;" 0) [("b", KInt 2); ("a", KInt 1)].
Proof.
  apply hash_model_kwargs_order_independent.
  - simpl. apply List.NoDup_cons_iff. split.
    + simpl. intros [H | []]. discriminate H.
    + apply List.NoDup_cons_iff. split; [simpl; tauto | apply List.NoDup_nil].
  - apply perm_swap.
Defined.

(** The digests are those of [hashlib.md5]. *)
Example md5_empty : MD5.hexdigest MD5.md5 = "d41d8cd98f00b204e9800998ecf8427e".
Proof. vm_compute. reflexivity. Qed.

Example md5_abc :
  MD5.hexdigest (MD5.update MD5.md5 "abc") = "900150983cd24fb0d6963f7d28e17f72".
Proof. vm_compute. reflexivity. Qed.

Example hash_model_sorted_example :
  hash_model repr_kwval no_file (StringIO "Version,9.2;" 0) [("b", KInt 2); ("a", KInt 1)]
  = Ok "ae3a9443c7d093219e8c6101b1cc984e".
Proof. vm_compute. reflexivity. Qed.

(** The excluded keys are removed before the text is built: among dicts that
    keep another key, an excluded key and its value do not count. *)
Lemma kwargs_str_excluded {V : Type} (repr : V -> string)
      (k : string) (v : V) (kwargs : list (string * V)) :
  In k no_impact -> kwargs <> [] ->
  kwargs_str repr ((k, v) :: kwargs) = kwargs_str repr kwargs.
Proof.
  intros Hk Hne. destruct kwargs as [| x kwargs]; [done |].
  unfold kwargs_str. f_equal. f_equal.
  unfold no_impact in *.
  destruct Hk as [<- | [<- | [<- | [<- | []]]]]; simpl;
    repeat match goal with
           | |- context [String.eqb ?a ?b] => destruct (String.eqb a b); simpl
           end; reflexivity.
Qed.

(** C3 (the code at the failing input): with no keyword argument the text
    [{}] is hashed, with the excluded [keep_data=True] alone the text
    [OrderedDict()]; the two digests of the same model differ. *)
Theorem hash_model_excluded_key_changes_digest :
  hash_model repr_kwval no_file (StringIO "Version,9.2;" 0) []
  = Ok "76993fd84ab078467e937a2f7943167a"
  /\ hash_model repr_kwval no_file (StringIO "Version,9.2;" 0) [("keep_data", KBool true)]
     = Ok "71976718368b0e59d6efc8f405694661"
  /\ hash_model repr_kwval no_file (StringIO "Version,9.2;" 0) []
     <> hash_model repr_kwval no_file (StringIO "Version,9.2;" 0) [("keep_data", KBool true)].
Proof.
  split; [vm_compute; reflexivity |].
  split; [vm_compute; reflexivity |].
  vm_compute. discriminate.
Qed.

(** ** The migration engine *)

(** The version that a key "X-X-X" of the tables denotes. *)
Definition key_version (key : string) : list Z :=
  match int_tuple "-" key with
  | Ok v => v
  | Raise _ => []
  end.

(** The steps of the table whose starting version [k] satisfies
    [v <= k < t]: what the claim calls the steps from [v] up to [t]. *)
Definition steps_between (v t : list Z) : list (string * string) :=
  List.filter
    (fun kv => tuple_ge (key_version (fst kv)) v && tuple_lt (key_version (fst kv)) t)
    transition_names.

(** The version that the program of a step migrates to, read off its name. *)
Definition step_target (kv : string * string) : IDF.EnergyPlusVersion :=
  match IDF.re_search_to_V (snd kv) with
  | Some group1 =>
      match IDF.parse_version group1 with
      | Ok v => v
      | Raise _ => []
      end
  | None => []
  end.

(** The versions of the chain of the table: the starting versions of the
    steps and the last target. *)
Definition chain_versions : list (list Z) :=
  (map (fun kv => key_version (fst kv)) transition_names ++ [[9; 2; 0]])%list.

Section TransitionLoopFacts.
Context {World : Type} (os : OS World) {K : Type}.
Context (trans_exec : K -> result string).
Context (to_version idf_file idf cwd : string).







End TransitionLoopFacts.



(** *** The module-level [_execute_transitions] *)




Lemma transition_names_keys_parse :
  List.Forall (fun key => int_tuple "-" key = Ok (key_version key))
              (map fst transition_names).
Proof.
  unfold transition_names. simpl.
  repeat (apply List.Forall_cons; [vm_compute; reflexivity |]).
  apply List.Forall_nil.
Qed.


(** The list comprehension keeps the keys [k] with [v <= k < t]. *)
Lemma select_transitions_filter (to_version versionid : string) (v t : list Z)
      (keys : list string) :
  int_tuple "-" versionid = Ok v ->
  int_tuple "-" to_version = Ok t ->
  List.Forall (fun key => int_tuple "-" key = Ok (key_version key)) keys ->
  select_transitions to_version versionid keys
  = Ok (List.filter
          (fun key => tuple_ge (key_version key) v && tuple_lt (key_version key) t)
          keys).
Proof.
  intros Hv Ht Hkeys.
  induction Hkeys as [| key keys Hkey _ IH]; [reflexivity |].
  cbn [select_transitions List.filter]. rewrite Hkey, Ht, Hv. cbn [rbind].
  rewrite IH. cbn [rbind].
  destruct (tuple_lt (key_version key) t), (tuple_ge (key_version key) v); reflexivity.
Qed.



Section ModuleLevelFacts.
Context {World : Type} (os : OS World) (vupdater_path exe : string).

(** The path of the program of a step. *)
Definition step_program (kv : string * string) : string :=
  joinpath vupdater_path (snd kv) +:+ exe.

Lemma trans_exec_keys :
  map fst (trans_exec vupdater_path exe) = map fst transition_names.
Proof. unfold trans_exec. rewrite map_map. reflexivity. Qed.



Lemma select_steps_between (to_version versionid : string) (v t : list Z) :
  int_tuple "-" versionid = Ok v ->
  int_tuple "-" to_version = Ok t ->
  select_transitions to_version versionid (map fst (trans_exec vupdater_path exe))
  = Ok (map fst (steps_between v t)).
Proof.
  intros Hv Ht. rewrite trans_exec_keys.
  rewrite (select_transitions_filter _ _ v t _ Hv Ht transition_names_keys_parse).
  f_equal. unfold steps_between.
  generalize transition_names. intros l.
  induction l as [| kv l IH]; [reflexivity |].
  simpl. destruct (_ && _); simpl; by rewrite IH.
Qed.
End ModuleLevelFacts.


(** *** The order of versions and [list.sort()] *)


Lemma tuple_lt_trans (a b c : list Z) :
  tuple_lt a b = true -> tuple_lt b c = true -> tuple_lt a c = true.
Proof.
  revert b c. induction a as [| x a IH]; intros [| y b] [| z c]; simpl; try done.
  destruct (Z.eqb_spec x y), (Z.eqb_spec y z), (Z.eqb_spec x z);
    rewrite ?Z.ltb_lt; intros; subst; try lia; eauto.
Qed.

Lemma tuple_lt_total (a b : list Z) :
  tuple_lt a b = false -> tuple_lt b a = false -> a = b.
Proof.
  revert b. induction a as [| x a IH]; intros [| y b]; simpl; try done.
  destruct (Z.eqb_spec x y), (Z.eqb_spec y x);
    rewrite ?Z.ltb_ge; intros; subst; try lia.
  f_equal. by apply IH.
Qed.


(** [a <= b] on versions. *)
Definition version_le (a b : list Z) : Prop := tuple_lt b a = false.

Lemma version_le_trans (a b c : list Z) :
  version_le a b -> version_le b c -> version_le a c.
Proof.
  unfold version_le. intros Hab Hbc.
  destruct (tuple_lt c a) eqn:Hca; [| reflexivity].
  destruct (tuple_lt a b) eqn:Hlt.
  - by rewrite (tuple_lt_trans c a b Hca Hlt) in Hbc.
  - rewrite (tuple_lt_total a b Hlt Hab) in Hca. congruence.
Qed.






(** *** The method [IDF._execute_transitions] *)



(** The version after [to-V] in the name of a program: the key under which
    the dict comprehension of the method files it. *)
Definition program_target (exec : string) : result IDF.EnergyPlusVersion :=
  match IDF.re_search_to_V exec with
  | None => Raise (AttributeError "'NoneType' object has no attribute 'group'")
  | Some group1 => IDF.parse_version group1
  end.

(** The name of a listed program holds a target version. *)
Definition names_target (exec : string) : bool :=
  match program_target exec with
  | Ok _ => true
  | Raise _ => false
  end.

Lemma dict_set_keys {A : Type} (k : IDF.EnergyPlusVersion) (x : A) d k' :
  In k' (map fst (IDF.dict_set k x d)) <-> k' = k \/ In k' (map fst d).
Proof.
  induction d as [| [k0 x0] d IH]; simpl; [intuition congruence |].
  unfold IDF.version_eqb. case_bool_decide; simpl; [intuition congruence |].
  rewrite IH. intuition congruence.
Qed.

Lemma dict_set_NoDup {A : Type} (k : IDF.EnergyPlusVersion) (x : A) d :
  List.NoDup (map fst d) -> List.NoDup (map fst (IDF.dict_set k x d)).
Proof.
  induction d as [| [k0 x0] d IH]; simpl; intros Hnd.
  - apply List.NoDup_cons; [tauto | apply List.NoDup_nil].
  - apply List.NoDup_cons_iff in Hnd as [Hnotin Hnd].
    unfold IDF.version_eqb. case_bool_decide; simpl.
    + by apply List.NoDup_cons.
    + apply List.NoDup_cons; [| by apply IH].
      rewrite dict_set_keys. intuition congruence.
Qed.

Lemma dict_set_In {A : Type} (k : IDF.EnergyPlusVersion) (x : A) d k' x' :
  In (k', x') (IDF.dict_set k x d) -> (k' = k /\ x' = x) \/ In (k', x') d.
Proof.
  induction d as [| [k0 x0] d IH]; simpl; [intuition congruence |].
  unfold IDF.version_eqb. case_bool_decide; simpl; intuition congruence.
Qed.

Section MethodFacts.
Context {World : Type} (os : OS World) (self : IDF.properties_of_self).

(** With the file version at hand, the comprehension keeps the keys [k]
    with [v < k <= t]. *)
Lemma method_select_filter (t v : list Z) (w : World) keys :
  IDF.file_version os self w = Ok v ->
  IDF.select_transitions os self t w keys
  = Ok (List.filter (fun k => tuple_ge t k && tuple_gt k v) keys).
Proof.
  intros Hv. induction keys as [| k keys IH]; [reflexivity |].
  cbn [IDF.select_transitions List.filter]. rewrite Hv, IH. cbn [rbind].
  destruct (tuple_ge t k), (tuple_gt k v); reflexivity.
Qed.

(** The dict comprehension: when the name of every listed program holds a
    target version, the dict has one entry for each target, and each entry
    is a listed program under its target. *)
Lemma transition_programs_listed (w : World) :
  forallb names_target
          (path_files os w (IDF.idfversionupdater_dir self) "Transition-V*") = true ->
  exists d,
    IDF.transition_programs os self w = Ok d
    /\ List.NoDup (map fst d)
    /\ (forall k exec, In (k, exec) d ->
          In exec (path_files os w (IDF.idfversionupdater_dir self) "Transition-V*")
          /\ program_target exec = Ok k)
    /\ (forall k, In k (map fst d) <->
          exists exec,
            In exec (path_files os w (IDF.idfversionupdater_dir self) "Transition-V*")
            /\ program_target exec = Ok k).
Proof.
  unfold IDF.transition_programs.
  generalize (path_files os w (IDF.idfversionupdater_dir self) "Transition-V*").
  intros listing Hnames.
  assert (Hgen : forall d0 : list (IDF.EnergyPlusVersion * string),
    List.NoDup (map fst d0) ->
    exists d,
      fold_left
        (fun acc exec =>
           rbind acc (fun d =>
             match IDF.re_search_to_V exec with
             | None => Raise (AttributeError "'NoneType' object has no attribute 'group'")
             | Some group1 =>
                 rbind (IDF.parse_version group1)
                       (fun key => Ok (IDF.dict_set key exec d))
             end))
        listing (Ok d0) = Ok d
      /\ List.NoDup (map fst d)
      /\ (forall k exec, In (k, exec) d ->
            In (k, exec) d0 \/ (In exec listing /\ program_target exec = Ok k))
      /\ (forall k, In k (map fst d) <->
            In k (map fst d0)
            \/ exists exec, In exec listing /\ program_target exec = Ok k)).
  { induction listing as [| exec listing IH]; intros d0 Hnd.
    - exists d0. simpl. split; [reflexivity |]. split; [exact Hnd |].
      split; [tauto |]. intros k. split; [tauto |].
      intros [H | (exec & [] & _)]. exact H.
    - simpl in Hnames. apply andb_true_iff in Hnames as [Hexec Hnames].
      unfold names_target in Hexec.
      destruct (program_target exec) as [key |] eqn:Hkey; [| discriminate].
      destruct (IH Hnames (IDF.dict_set key exec d0) (dict_set_NoDup key exec d0 Hnd))
        as (d & Hfold & Hnd' & Hin & Hkeys).
      exists d. split; [| split; [exact Hnd' | split]].
      + cbn [fold_left rbind]. unfold program_target in Hkey.
        destruct (IDF.re_search_to_V exec) as [group1 |]; [| discriminate].
        rewrite Hkey. cbn [rbind]. exact Hfold.
      + intros k e He. destruct (Hin k e He) as [Hset | [Hl Ht]].
        * destruct (dict_set_In key exec d0 k e Hset) as [[-> ->] | Hd0].
          -- right. split; [by left | exact Hkey].
          -- by left.
        * right. split; [by right | exact Ht].
      + intros k. rewrite Hkeys, dict_set_keys. split.
        * intros [[-> | Hd0] | (e & He & Ht)].
          -- right. exists exec. split; [by left | exact Hkey].
          -- by left.
          -- right. exists e. split; [by right | exact Ht].
        * intros [Hd0 | (e & [<- | He] & Ht)].
          -- left. by right.
          -- left. left. congruence.
          -- right. by exists e. }
  destruct (Hgen [] (List.NoDup_nil _)) as (d & Hfold & Hnd & Hin & Hkeys).
  exists d. split; [exact Hfold |]. split; [exact Hnd |]. split.
  - intros k exec He. destruct (Hin k exec He) as [[] | H]. exact H.
  - intros k. rewrite Hkeys. split; [intros [[] | H]; exact H | by right].
Qed.

End MethodFacts.
(** *** An installation to run the engine on *)

Definition updater_dir : string :=
  "/usr/local/EnergyPlus-9-2-0/PreProcess/IDFVersionUpdater".

(** An EnergyPlus 9-2-0 installation with the programs of the table except
    those in [missing]; every idf file has [field] as its version, and the
    disk is the list of the commands run so far. *)
Definition installation (field : string) (missing : list string) : OS trace :=
  {| path_exists := fun _ p => negb (bool_decide (p ∈ missing));
     path_isdir := fun _ _ => true;
     makedirs_p := fun _ w => w;
     path_copy := fun _ dst w => (dst, w);
     path_files := fun _ dir pattern =>
                     if String.eqb pattern "Transition-V*"
                     then map snd (trans_exec dir "") else [];
     mkdtemp := fun prefix _ dir w => (joinpath dir (prefix +:+ "0"), w);
     cleanup := fun _ w => w;
     Popen_communicate := fun cmd _ w => (w ++ [cmd])%list;
     version_field := fun _ _ => Ok field;
     getiddfile := fun v => "/usr/local/EnergyPlus-" +:+ replace "." "-" v +:+ "-0/Energy+.idd";
     latest_energyplus_version := fun _ => Ok "9-2-0";
     abspath := fun p => p;
     dirname := fun _ => "/models";
     basename := fun p => p |}.

(** The same installation with an updater directory that holds the
    programs [names] and no other, listed in that order. *)
Definition directory_installation (field : string) (names : list string) : OS trace :=
  let os := installation field [] in
  {| path_exists := fun _ p => bool_decide (p ∈ map (joinpath updater_dir) names);
     path_isdir := path_isdir os;
     makedirs_p := makedirs_p os;
     path_copy := path_copy os;
     path_files := fun _ dir pattern =>
                     if String.eqb pattern "Transition-V*"
                     then map (joinpath dir) names else [];
     mkdtemp := mkdtemp os;
     cleanup := cleanup os;
     Popen_communicate := Popen_communicate os;
     version_field := version_field os;
     getiddfile := getiddfile os;
     latest_energyplus_version := latest_energyplus_version os;
     abspath := abspath os;
     dirname := dirname os;
     basename := basename os |}.

Definition example_self : IDF.properties_of_self :=
  {| IDF.name := "model.idf";
     IDF.idfname := "/models/model.idf";
     IDF.output_directory := "/cache/0f3a";
     IDF.idfversionupdater_dir := updater_dir |}.

(** The commands of the steps from [v] up to [t]. *)
Definition step_commands (dir exe idf_file : string) (v t : list Z) : list (list string) :=
  map (fun kv => [step_program dir exe kv; idf_file]) (steps_between v t).







(** The programs of the table as a directory lists them when it runs from
    the newest to the oldest. *)
Definition newest_first : list string := rev (map snd transition_names).


(** What the method starts on that directory. *)
Example method_on_newest_first :
  IDF._execute_transitions (directory_installation "8.9" newest_first) example_self
                           "/tmp/model.idf" [9; 2; 0] [] []
  = (Ok tt,
     [[updater_dir +:+ "/Transition-V8-9-0-to-V9-0-0"; "/tmp/model.idf"];
      [updater_dir +:+ "/Transition-V9-0-0-to-V9-1-0"; "/tmp/model.idf"];
      [updater_dir +:+ "/Transition-V9-1-0-to-V9-2-0"; "/tmp/model.idf"]],
     [[updater_dir +:+ "/Transition-V8-9-0-to-V9-0-0"; "/tmp/model.idf"];
      [updater_dir +:+ "/Transition-V9-0-0-to-V9-1-0"; "/tmp/model.idf"];
      [updater_dir +:+ "/Transition-V9-1-0-to-V9-2-0"; "/tmp/model.idf"]]).
Proof. vm_compute. reflexivity. Qed.

Example steps_from_8_9_0_to_9_2_0 :
  step_commands updater_dir "" "/tmp/model.idf" [8; 9; 0] [9; 2; 0]
  = [[updater_dir +:+ "/Transition-V8-9-0-to-V9-0-0"; "/tmp/model.idf"];
     [updater_dir +:+ "/Transition-V9-0-0-to-V9-1-0"; "/tmp/model.idf"];
     [updater_dir +:+ "/Transition-V9-1-0-to-V9-2-0"; "/tmp/model.idf"]].
Proof. vm_compute. reflexivity. Qed.

(** *** A missing program *)




(** The programs of the table without the one that starts at 9-0-0. *)
Definition without_9_0_0 : list string :=
  List.filter (fun name => negb (String.eqb name "Transition-V9-0-0-to-V9-1-0"))
              (map snd transition_names).

(** C7 (the code at the failing input): a file of version 8.9 is migrated to
    9-2-0 and the updater directory holds every program of the table but
    [Transition-V9-0-0-to-V9-1-0]. [IDF._execute_transitions] builds its dict
    from the programs that the directory lists, so the step of the missing
    program is not among its keys and its test of [exists()] never sees it:
    the method starts the programs to 9-0-0 and to 9-2-0 and returns, having
    raised nothing. On the same disk the module-level function stops at the
    missing program with [EnergyPlusProcessError]. *)
Theorem method_skips_missing_transition_program :
  path_exists (directory_installation "8.9" without_9_0_0) []
              (updater_dir +:+ "/Transition-V9-0-0-to-V9-1-0") = false
  /\ IDF._execute_transitions (directory_installation "8.9" without_9_0_0) example_self
                              "/tmp/model.idf" [9; 2; 0] [] []
     = (Ok tt,
        [[updater_dir +:+ "/Transition-V8-9-0-to-V9-0-0"; "/tmp/model.idf"];
         [updater_dir +:+ "/Transition-V9-1-0-to-V9-2-0"; "/tmp/model.idf"]],
        [[updater_dir +:+ "/Transition-V8-9-0-to-V9-0-0"; "/tmp/model.idf"];
         [updater_dir +:+ "/Transition-V9-1-0-to-V9-2-0"; "/tmp/model.idf"]])
  /\ _execute_transitions (directory_installation "8.9" without_9_0_0)
                          updater_dir "" "/tmp/model.idf" "9-2-0" "8-9-0" [] []
     = (Raise (EnergyPlusProcessError
                 (CmdPath (updater_dir +:+ "/Transition-V9-0-0-to-V9-1-0"))
                 (missing_program_message "9-2-0"
                    (updater_dir +:+ "/Transition-V9-0-0-to-V9-1-0"))
                 "/tmp/model.idf"),
        [[updater_dir +:+ "/Transition-V8-9-0-to-V9-0-0"; "/tmp/model.idf"]],
        [[updater_dir +:+ "/Transition-V8-9-0-to-V9-0-0"; "/tmp/model.idf"]]).
Proof. repeat split; vm_compute; reflexivity. Qed.

(** *** The version check of the module-level updater *)

(** C6 (the code at the failing input): for a file of version 22.1 and the
    target 9-2-0, a downgrade, [_check_version] compares the tuples of
    strings ("22" sorts before "9") and returns without raising; the updater
    then fails in [_execute_transitions] with a [ValueError] of [int], not
    with [EnergyPlusVersionError]. *)
Theorem check_version_misses_downgrade :
  IDF.parse_version "22.1" = Ok [22; 1; 0]
  /\ tuple_gt [22; 1; 0] [9; 2; 0] = true
  /\ _check_version (installation "22.1" []) "/models/model.idf" (Some "9-2-0") "/models" []
     = (Ok (Versions "9-2-0" "22-1-"), [])
  /\ idf_version_updater (installation "22.1" []) updater_dir ""
                         "/models/model.idf" (Some "9-2-0") None None true []
     = (Raise (ValueError "invalid literal for int() with base 10: ''"), [], []).
Proof. repeat split; vm_compute; reflexivity. Qed.

(** The example of the claim, with one digit in each place. *)
Example check_version_9_0_0_to_8_0_0 :
  _check_version (installation "9.0" []) "/models/model.idf" (Some "8-0-0") "/models" []
  = (Raise (EnergyPlusVersionError ["/models/model.idf"; "9-0-0"; "8-0-0"]), []).
Proof. vm_compute. reflexivity. Qed.


(** ** The failure path of [_run_exec] *)

Section RunExecFacts.
Context {World : Type} (os : RunOS World).

(** The run up to the return code of the subprocess. *)
Lemma run_exec_after_process (p : run_params) (w w2 : World) (return_code : Z) :
  ep_version p <> "" ->
  version p = false ->
  run_process os (energyplus_command os p w)
              (chdir os (run_abspath os w (tmp p)) w) = (return_code, w2) ->
  return_code <> 0 ->
  fst (_run_exec os p w)
  = match read_text os w2 (output_prefix p +:+ "out.err") with
    | Ok stderr_r =>
        match fst (keep_failed_run os p (run_abspath os w (tmp p)) w2) with
        | Ok _ =>
            Raise (EnergyPlusProcessError (CmdArgv (energyplus_command os p w)) stderr_r
                     (run_basename os (eplus_file p)))
        | Raise (FileNotFoundError _) =>
            Raise (CalledProcessError return_code (CmdArgv (energyplus_command os p w)))
        | Raise e => Raise e
        end
    | Raise (FileNotFoundError _) =>
        Raise (CalledProcessError return_code (CmdArgv (energyplus_command os p w)))
    | Raise e => Raise e
    end.
Proof.
  intros Hver Hflag Hrun Hcode. unfold _run_exec.
  rewrite bool_decide_eq_false_2 by exact Hver.
  destruct (install_paths os (ep_version p) (idd p)) as [exe weather_dir].
  rewrite Hflag. cbv zeta. rewrite Hrun.
  assert ((return_code =? 0) = false) as -> by (by apply Z.eqb_neq).
  cbn [negb].
  destruct (read_text os w2 (output_prefix p +:+ "out.err")) as [stderr_r | e].
  - destruct (keep_failed_run os p (run_abspath os w (tmp p)) w2) as [[[] | e] w3];
      [reflexivity |].
    destruct e; reflexivity.
  - destruct e; reflexivity.
Qed.
End RunExecFacts.

(** A disk as the list of its directories, and a run of EnergyPlus on it
    that fails with return code 1; [err] is what reading
    [<output_prefix>out.err] gives. [copytree] is [shutil.copytree]: the
    source must be there and the destination must not. *)
Definition failing_run (err : result string) : RunOS (list string) :=
  {| install_paths := fun _ _ => ("/usr/local/EnergyPlus-9-2-0/energyplus",
                                  "/usr/local/EnergyPlus-9-2-0/WeatherData/");
     isfile := fun _ _ => true;
     run_abspath := fun _ path => path;
     chdir := fun _ w => w;
     run_process := fun _ w => (1, w);
     read_text := fun _ _ => err;
     mkdir_p := fun dir w =>
                  if bool_decide (dir ∈ w) then (Ok tt, w) else (Ok tt, (w ++ [dir])%list);
     copytree := fun src dst w =>
                   if negb (bool_decide (src ∈ w)) then (Raise (FileNotFoundError src), w)
                   else if bool_decide (dst ∈ w) then (Raise (FileExistsError dst), w)
                   else (Ok tt, (w ++ [dst])%list);
     run_basename := fun path => path |}.

Definition example_run (keep_data_err : bool) : run_params :=
  {| tmp := "/cache/eplus_run_1";
     eplus_file := "model.idf";
     weather := "/w/montreal.epw";
     run_output_directory := "/cache";
     annual := false;
     design_day := true;
     idd := "/cache/eplus_run_1/Energy+.idd";
     epmacro := true;
     expandobjects := true;
     readvars := true;
     output_prefix := "0f3a";
     output_suffix := "L";
     version := false;
     verbose := "v";
     ep_version := "9-2-0";
     keep_data_err := keep_data_err |}.

(** The disk before the first run of the model. *)
Definition example_disk : list string := ["/cache"; "/cache/eplus_run_1"].

Example example_run_command :
  energyplus_command (failing_run (Ok "")) (example_run true) example_disk
  = ["/usr/local/EnergyPlus-9-2-0/energyplus"; "--weather"; "/w/montreal.epw";
     "--design-day"; "--epmacro"; "--expandobjects"; "--readvars";
     "--output-prefix"; "0f3a"; "--output-suffix"; "L"; "model.idf"].
Proof. vm_compute. reflexivity. Qed.

(** C8 (the code at the failing input): the model fails a second time with
    [keep_data_err=True]. The first failure raises [EnergyPlusProcessError]
    and leaves the copy [/cache/failed/0f3a]; at the second one the copy,
    which runs inside the [try] block before the [raise], finds its
    destination there: [FileExistsError] is raised, although the error file
    was read. When the copy raises [FileNotFoundError] (no directory of the
    run) the handler turns it into [CalledProcessError], as if the error file
    were missing. *)
Theorem run_exec_failed_copy_hides_process_error :
  _run_exec (failing_run (Ok "** Severe ** no zones")) (example_run true) example_disk
  = (Raise (EnergyPlusProcessError
              (CmdArgv (energyplus_command (failing_run (Ok "")) (example_run true)
                                           example_disk))
              "** Severe ** no zones" "model.idf"),
     ["/cache"; "/cache/eplus_run_1"; "/cache/failed"; "/cache/failed/0f3a"])
  /\ _run_exec (failing_run (Ok "** Severe ** no zones")) (example_run true)
               ["/cache"; "/cache/eplus_run_1"; "/cache/failed"; "/cache/failed/0f3a"]
     = (Raise (FileExistsError "/cache/failed/0f3a"),
        ["/cache"; "/cache/eplus_run_1"; "/cache/failed"; "/cache/failed/0f3a"])
  /\ _run_exec (failing_run (Ok "** Severe ** no zones")) (example_run true) ["/cache"]
     = (Raise (CalledProcessError 1
                 (CmdArgv (energyplus_command (failing_run (Ok "")) (example_run true)
                                              example_disk))),
        ["/cache"; "/cache/failed"]).
Proof. repeat split; vm_compute; reflexivity. Qed.

(** With the copy out of the way ([keep_data_err] false, or a copy that
    completes) a return code other than 0 raises [EnergyPlusProcessError]
    with the command line, the text of [<output_prefix>out.err] and the name
    of the model when that file can be read, and [CalledProcessError] with
    the return code and the command line when the file is not found. *)
Theorem run_exec_nonzero_exit_raises
  {World : Type} (os : RunOS World) (p : run_params) (w w2 : World) (return_code : Z) :
  ep_version p <> "" ->
  version p = false ->
  run_process os (energyplus_command os p w)
              (chdir os (run_abspath os w (tmp p)) w) = (return_code, w2) ->
  return_code <> 0 ->
  fst (keep_failed_run os p (run_abspath os w (tmp p)) w2) = Ok tt ->
  match read_text os w2 (output_prefix p +:+ "out.err") with
  | Ok stderr_r =>
      fst (_run_exec os p w)
      = Raise (EnergyPlusProcessError (CmdArgv (energyplus_command os p w)) stderr_r
                 (run_basename os (eplus_file p)))
  | Raise (FileNotFoundError _) =>
      fst (_run_exec os p w)
      = Raise (CalledProcessError return_code (CmdArgv (energyplus_command os p w)))
  | Raise e => fst (_run_exec os p w) = Raise e
  end.
Proof.
  intros Hver Hflag Hrun Hcode Hkeep.
  rewrite (run_exec_after_process os p w w2 return_code Hver Hflag Hrun Hcode), Hkeep.
  destruct (read_text os w2 (output_prefix p +:+ "out.err")) as [stderr_r | e];
    [reflexivity |].
  destruct e; reflexivity.
Qed.

Lemma run_exec_nonzero_exit_raises_witness :
  fst (_run_exec (failing_run (Ok "** Severe ** no zones")) (example_run false)
                 example_disk)
  = Raise (EnergyPlusProcessError
             (CmdArgv (energyplus_command (failing_run (Ok "** Severe ** no zones"))
                                          (example_run false) example_disk))
             "** Severe ** no zones" "model.idf").
Proof.
  exact (run_exec_nonzero_exit_raises
           (failing_run (Ok "** Severe ** no zones")) (example_run false)
           example_disk example_disk 1
           ltac:(discriminate) eq_refl eq_refl ltac:(discriminate) eq_refl).
Defined.

(** A return code other than 0 never ends in a return: whatever the error
    file and the copy do, [_run_exec] raises. *)
Theorem run_exec_nonzero_exit_never_returns
  {World : Type} (os : RunOS World) (p : run_params) (w w2 : World) (return_code : Z) :
  ep_version p <> "" ->
  version p = false ->
  run_process os (energyplus_command os p w)
              (chdir os (run_abspath os w (tmp p)) w) = (return_code, w2) ->
  return_code <> 0 ->
  exists e, fst (_run_exec os p w) = Raise e.
Proof.
  intros Hver Hflag Hrun Hcode.
  rewrite (run_exec_after_process os p w w2 return_code Hver Hflag Hrun Hcode).
  destruct (read_text os w2 (output_prefix p +:+ "out.err")) as [stderr_r | e].
  - destruct (fst (keep_failed_run os p (run_abspath os w (tmp p)) w2)) as [[] | e];
      [eauto |].
    destruct e; eauto.
  - destruct e; eauto.
Qed.

Lemma run_exec_nonzero_exit_never_returns_witness :
  exists e,
    fst (_run_exec (failing_run (Raise (FileNotFoundError "0f3aout.err"))) (example_run true)
                   example_disk) = Raise e.
Proof.
  exact (run_exec_nonzero_exit_never_returns
           (failing_run (Raise (FileNotFoundError "0f3aout.err"))) (example_run true)
           example_disk example_disk 1
           ltac:(discriminate) eq_refl eq_refl ltac:(discriminate)).
Defined.

Example run_exec_without_error_file :
  fst (_run_exec (failing_run (Raise (FileNotFoundError "0f3aout.err"))) (example_run false)
                 example_disk)
  = Raise (CalledProcessError 1
             (CmdArgv (energyplus_command (failing_run (Ok "")) (example_run false)
                                          example_disk))).
Proof. vm_compute. reflexivity. Qed.

(** ** The HTML report reader *)

(** Three tables of the report with the same title. *)
Definition three_reports : list (string * list (list string)) :=
  [ ("Site and Source Energy", [["Energy"]; ["1"]]);
    ("Site and Source Energy", [["Energy"]; ["2"]]);
    ("Site and Source Energy", [["Energy"]; ["3"]]) ].

Definition frame (value : string) : @DataFrame string :=
  {| columns := [Some "Energy"]; index := [1]; values := [[Some value]] |}.

(** C9 (the code at the failing input): of three tables with the same title
    the second is stored under the title with the marker ["_"], and the third
    under that same key again: the mapping has two entries and the second
    table is lost. *)
Theorem summary_reports_third_duplicate_overwrites :
  exists results_dict : gmap string (@DataFrame string),
    summary_reports_to_dataframes three_reports = Ok results_dict
    /\ size results_dict = 2%nat
    /\ results_dict !! "Site and Source Energy" = Some (frame "1")
    /\ results_dict !! "Site and Source Energy_" = Some (frame "3")
    /\ forall key, results_dict !! key <> Some (frame "2").
Proof.
  exists (<["Site and Source Energy_" := frame "3"]>
            (<["Site and Source Energy" := frame "1"]> ∅)).
  split; [vm_compute; reflexivity |].
  split; [vm_compute; reflexivity |].
  split; [vm_compute; reflexivity |].
  split; [vm_compute; reflexivity |].
  intros key. rewrite lookup_insert. case_decide; [discriminate |].
  rewrite lookup_insert. case_decide; [discriminate |].
  rewrite lookup_empty. discriminate.
Qed.

(** With two tables of the same title both are kept. *)
Example summary_reports_two_duplicates :
  summary_reports_to_dataframes (firstn 2 three_reports)
  = Ok (<["Site and Source Energy_" := frame "2"]>
          (<["Site and Source Energy" := frame "1"]> ∅)).
Proof. vm_compute. reflexivity. Qed.

(** ** Further properties of the fingerprint *)

(** Among keyword arguments that keep another key, a key of [no_impact]
    and its value do not change the digest. *)
Theorem hash_model_ignores_excluded_key
  {V : Type} (repr : V -> string) (open_rb : string -> result string)
  (idfname : model_ref) (k : string) (v : V) (kwargs : list (string * V)) :
  In k no_impact ->
  kwargs <> [] ->
  hash_model repr open_rb idfname ((k, v) :: kwargs)
  = hash_model repr open_rb idfname kwargs.
Proof.
  intros Hk Hne. unfold hash_model.
  by rewrite (kwargs_str_excluded repr k v kwargs Hk Hne).
Qed.

Lemma hash_model_ignores_excluded_key_witness :
  hash_model repr_kwval no_file (StringIO "Version,9.2;" 0)
             [("keep_data_err", KBool true); ("annual", KBool true)]
  = hash_model repr_kwval no_file (StringIO "Version,9.2;" 0) [("annual", KBool true)].
Proof.
  apply hash_model_ignores_excluded_key.
  - simpl. auto.
  - discriminate.
Defined.

(** A lower-case hexadecimal digit. *)
Definition is_hex (c : ascii) : bool :=
  is_digit c || ((97 <=? code c) && (code c <=? 102)).

Fixpoint all_chars (p : ascii -> bool) (s : string) : bool :=
  match s with
  | EmptyString => true
  | String c rest => p c && all_chars p rest
  end.

Lemma le_bytes_length (n : nat) (x : Z) : List.length (MD5.le_bytes n x) = n.
Proof.
  revert x. induction n as [| n IH]; intros x; simpl; [reflexivity |].
  by rewrite IH.
Qed.

Lemma le_bytes_range (n : nat) (x : Z) :
  List.Forall (fun b => 0 <= b < 256) (MD5.le_bytes n x).
Proof.
  revert x. induction n as [| n IH]; intros x; simpl; constructor.
  - apply Z.mod_pos_bound. lia.
  - apply IH.
Qed.

Lemma hex_digit_is_hex (x : Z) : 0 <= x < 16 -> is_hex (MD5.hex_digit x) = true.
Proof.
  intros Hx.
  assert (H : x = 0 \/ x = 1 \/ x = 2 \/ x = 3 \/ x = 4 \/ x = 5 \/ x = 6 \/ x = 7
              \/ x = 8 \/ x = 9 \/ x = 10 \/ x = 11 \/ x = 12 \/ x = 13 \/ x = 14
              \/ x = 15) by lia.
  repeat (destruct H as [-> | H]; [vm_compute; reflexivity |]).
  subst x. vm_compute. reflexivity.
Qed.

Lemma hex_format (bytes : list Z) :
  List.Forall (fun b => 0 <= b < 256) bytes ->
  String.length (MD5.hex bytes) = (2 * List.length bytes)%nat
  /\ all_chars is_hex (MD5.hex bytes) = true.
Proof.
  induction 1 as [| b bytes Hb _ [IHlen IHhex]]; [split; reflexivity |].
  split.
  - cbn [MD5.hex String.length List.length]. rewrite IHlen. lia.
  - cbn [MD5.hex all_chars]. rewrite IHhex.
    rewrite !hex_digit_is_hex; [reflexivity | |].
    + apply Z.mod_pos_bound. lia.
    + split; [apply Z.div_pos; lia | apply Z.div_lt_upper_bound; lia].
Qed.

Lemma digest_format (msg : list Z) :
  List.length (MD5.digest msg) = 16%nat
  /\ List.Forall (fun b => 0 <= b < 256) (MD5.digest msg).
Proof.
  unfold MD5.digest.
  destruct (fold_left MD5.process_block _ MD5.initial) as [[[a b] c] d].
  split.
  - rewrite !length_app, !le_bytes_length. reflexivity.
  - repeat (apply List.Forall_app; split); apply le_bytes_range.
Qed.

(** Whatever the model and the keyword arguments, a digest that
    [hash_model] returns is a string of 32 lower-case hexadecimal digits. *)
Theorem hash_model_hexadecimal
  {V : Type} (repr : V -> string) (open_rb : string -> result string)
  (idfname : model_ref) (kwargs : list (string * V)) (hexdigest : string) :
  hash_model repr open_rb idfname kwargs = Ok hexdigest ->
  String.length hexdigest = 32%nat /\ all_chars is_hex hexdigest = true.
Proof.
  unfold hash_model. intros Hhash.
  destruct (read_model open_rb idfname) as [buf | e]; [| discriminate].
  cbn [rbind] in Hhash. injection Hhash as <-.
  unfold MD5.hexdigest.
  destruct (digest_format
              (MD5.update (MD5.update MD5.md5 buf) (kwargs_str repr kwargs)))
    as [Hlen Hrange].
  destruct (hex_format _ Hrange) as [Hhexlen Hhex].
  split; [| exact Hhex]. rewrite Hhexlen, Hlen. reflexivity.
Qed.

Lemma hash_model_hexadecimal_witness :
  String.length "ae3a9443c7d093219e8c6101b1cc984e" = 32%nat
  /\ all_chars is_hex "ae3a9443c7d093219e8c6101b1cc984e" = true.
Proof.
  exact (hash_model_hexadecimal repr_kwval no_file (StringIO "Version,9.2;" 0)
           [("b", KInt 2); ("a", KInt 1)] "ae3a9443c7d093219e8c6101b1cc984e"
           hash_model_sorted_example).
Defined.

(** ** Further properties of the migration *)



Lemma filter_none {A : Type} (f : A -> bool) (l : list A) :
  (forall x, In x l -> f x = false) -> List.filter f l = [].
Proof.
  induction l as [| x l IH]; intros Hall; [reflexivity |].
  simpl. rewrite (Hall x) by (by left). apply IH. intros y Hy. apply Hall. by right.
Qed.

(** The module-level [_execute_transitions] starts no program and returns
    when the target is not above the version of the file. *)
Theorem execute_transitions_nothing_to_do
  {World : Type} (os : OS World) (vupdater_path exe idf_file to_version versionid : string)
  (v t : list Z) (w : World) :
  int_tuple "-" versionid = Ok v ->
  int_tuple "-" to_version = Ok t ->
  tuple_le t v = true ->
  _execute_transitions os vupdater_path exe idf_file to_version versionid w []
  = (Ok tt, w, []).
Proof.
  intros Hv Ht Hle. unfold _execute_transitions.
  rewrite (select_steps_between vupdater_path exe to_version versionid v t Hv Ht).
  assert (Hnone : steps_between v t = []).
  { unfold steps_between. apply filter_none. intros kv _.
    apply andb_false_iff.
    destruct (tuple_lt (key_version (fst kv)) t) eqn:Hkt; [| by right].
    left. unfold tuple_ge. apply negb_false_iff.
    destruct (tuple_lt (key_version (fst kv)) v) eqn:Hkv; [reflexivity |].
    unfold tuple_le in Hle. apply negb_true_iff in Hle.
    pose proof (version_le_trans t v (key_version (fst kv)) Hle Hkv) as Hcontra.
    unfold version_le in Hcontra. congruence. }
  rewrite Hnone. reflexivity.
Qed.

Lemma execute_transitions_nothing_to_do_witness :
  _execute_transitions (installation "9.2" []) updater_dir "" "/tmp/model.idf"
                       "9-0-0" "9-2-0" [] []
  = (Ok tt, [], []).
Proof.
  exact (execute_transitions_nothing_to_do (installation "9.2" []) updater_dir ""
           "/tmp/model.idf" "9-0-0" "9-2-0" [9; 2; 0] [9; 0; 0] []
           ltac:(vm_compute; reflexivity) ltac:(vm_compute; reflexivity) eq_refl).
Defined.

(** [IDF._execute_transitions] starts no program and returns when the
    target is not above the version of the file, whatever programs the
    updater directory lists. *)
Theorem method_nothing_to_do
  {World : Type} (os : OS World) (self : IDF.properties_of_self)
  (idf_file : string) (v t : list Z) (w : World) :
  IDF.file_version os self w = Ok v ->
  forallb names_target
          (path_files os w (IDF.idfversionupdater_dir self) "Transition-V*") = true ->
  tuple_le t v = true ->
  IDF._execute_transitions os self idf_file t w [] = (Ok tt, w, []).
Proof.
  intros Hfile Hnames Hle.
  destruct (transition_programs_listed os self w Hnames) as (d & Hd & _).
  unfold IDF._execute_transitions. rewrite Hd.
  rewrite (method_select_filter os self t v w _ Hfile).
  assert (Hnone : List.filter (fun k => tuple_ge t k && tuple_gt k v) (map fst d) = []).
  { apply filter_none. intros k _. apply andb_false_iff.
    destruct (tuple_gt k v) eqn:Hkv; [| by right].
    left. unfold tuple_ge. apply negb_false_iff.
    destruct (tuple_lt t k) eqn:Htk; [reflexivity |].
    unfold tuple_le in Hle. apply negb_true_iff in Hle.
    pose proof (version_le_trans k t v Htk Hle) as Hcontra.
    unfold version_le, tuple_gt in *. congruence. }
  rewrite Hnone. reflexivity.
Qed.

Lemma method_nothing_to_do_witness :
  IDF._execute_transitions (directory_installation "9.2" newest_first) example_self
                           "/tmp/model.idf" [9; 2; 0] [] []
  = (Ok tt, [], []).
Proof.
  exact (method_nothing_to_do (directory_installation "9.2" newest_first) example_self
           "/tmp/model.idf" [9; 2; 0] [9; 2; 0] []
           ltac:(vm_compute; reflexivity) ltac:(vm_compute; reflexivity) eq_refl).
Defined.

(** ** Further properties of the report reader *)

Section DistinctTitles.
Context {Cell : Type}.

Lemma to_dataframe_nonempty (table : list (list Cell)) :
  table <> [] -> exists df, to_dataframe table = Ok df.
Proof.
  intros Hne. unfold to_dataframe.
  destruct table as [| row table]; [done |].
  simpl. eauto.
Qed.

Lemma summary_reports_fold (reports : list (string * list (list Cell)))
      (acc : gmap string (@DataFrame Cell)) :
  List.NoDup (map fst reports) ->
  (forall title, In title (map fst reports) -> acc !! title = None) ->
  List.Forall (fun report => snd report <> []) reports ->
  exists results_dict,
    fold_left
      (fun acc table =>
         rbind acc (fun results_dict =>
           let key := fst table in
           let key :=
             if bool_decide (is_Some (results_dict !! key)) then key +:+ "_" else key in
           rbind (to_dataframe (snd table)) (fun df =>
             Ok (<[key := df]> results_dict))))
      reports (Ok acc) = Ok results_dict
    /\ (forall title table, In (title, table) reports ->
          exists df, to_dataframe table = Ok df /\ results_dict !! title = Some df)
    /\ (forall key, ~ In key (map fst reports) -> results_dict !! key = acc !! key).
Proof.
  revert acc. induction reports as [| [title table] reports IH];
    intros acc Hnd Hfresh Hnonempty.
  - exists acc. split; [reflexivity |]. split; [intros ? ? [] | reflexivity].
  - simpl in Hnd. apply List.NoDup_cons_iff in Hnd as [Hnotin Hnd].
    apply List.Forall_cons_iff in Hnonempty as [Htable Hnonempty].
    destruct (to_dataframe_nonempty table Htable) as [df Hdf].
    destruct (IH (<[title := df]> acc) Hnd) as (d & Hfold & Hkept & Hother).
    { intros t Ht. rewrite lookup_insert_ne by (intros ->; contradiction).
      apply Hfresh. by right. }
    { exact Hnonempty. }
    exists d. split; [| split].
    + cbn [fold_left rbind fst snd].
      rewrite (Hfresh title) by (by left).
      rewrite bool_decide_eq_false_2 by (intros [? ?]; discriminate).
      rewrite Hdf. cbn [rbind]. exact Hfold.
    + intros title' table' [[= <- <-] | Hin].
      * exists df. split; [exact Hdf |].
        rewrite (Hother title Hnotin). apply lookup_insert_eq.
      * by apply Hkept.
    + intros key Hkey. rewrite Hother by (intros ?; apply Hkey; by right).
      apply lookup_insert_ne. intros ->. apply Hkey. by left.
Qed.

(** When the titles of the report are distinct and no table is empty,
    [summary_reports_to_dataframes] returns a mapping that holds every table
    under its own title, and nothing else. *)
Theorem summary_reports_distinct_titles (reports : list (string * list (list Cell))) :
  List.NoDup (map fst reports) ->
  List.Forall (fun report => snd report <> []) reports ->
  exists results_dict,
    summary_reports_to_dataframes reports = Ok results_dict
    /\ (forall title table, In (title, table) reports ->
          exists df, to_dataframe table = Ok df /\ results_dict !! title = Some df)
    /\ (forall key, ~ In key (map fst reports) -> results_dict !! key = None).
Proof.
  intros Hnd Hnonempty.
  destruct (summary_reports_fold reports ∅ Hnd (fun title _ => lookup_empty title) Hnonempty)
    as (d & Hfold & Hkept & Hother).
  exists d. split; [exact Hfold |]. split; [exact Hkept |].
  intros key Hkey. rewrite (Hother key Hkey). apply lookup_empty.
Qed.
End DistinctTitles.

Lemma summary_reports_distinct_titles_witness :
  exists results_dict : gmap string (@DataFrame string),
    summary_reports_to_dataframes
      [("Site and Source Energy", [["Energy"]; ["1"]]);
       ("Building Area", [["Area"]; ["2"]])] = Ok results_dict
    /\ (forall title table,
          In (title, table) [("Site and Source Energy", [["Energy"]; ["1"]]);
                             ("Building Area", [["Area"]; ["2"]])] ->
          exists df, to_dataframe table = Ok df /\ results_dict !! title = Some df)
    /\ (forall key,
          ~ In key (map fst [("Site and Source Energy", [["Energy"]; ["1"]]);
                             ("Building Area", [["Area"]; ["2"]])]) ->
          results_dict !! key = None).
Proof.
  apply summary_reports_distinct_titles.
  - apply List.NoDup_cons; [simpl; intros [H | []]; discriminate H |].
    apply List.NoDup_cons; [simpl; tauto | apply List.NoDup_nil].
  - repeat constructor; discriminate.
Defined.
